(** * scripts/extract-baseline.py

    A shallow embedding of the baseline extraction script: the Python
    objects it builds (the result of [json.load], the extractor's record,
    the default document), the process state it acts on (files, the paths
    that cannot be opened for writing, standard output, standard error)
    and the script itself, from the import guard and [parse_args] to the
    last [print] of [main], written in a small state-and-exception monad
    so that the model reads like the script.  [main] is [parse_args]
    followed by [main_body]; [run] is the process once [parse_args] has
    returned a namespace, and [script] the process from its first line.

    The two libraries the script calls, [json] and [openpyxl], are not
    part of the script.  They are section variables: [json_dump] and
    [json_load] with the round-trip contract of Python's [json], and
    [load_workbook] with no contract at all.  Module [RefJson] implements
    the [json] interface on real text and is shown to meet the contract,
    so that every statement can be run on concrete files. *)

From Stdlib Require Import ZArith String Ascii List Lia DecimalPos DecimalZ.
From stdpp Require Import base option list gmap strings fin_maps.

Set Warnings "-register-all".
Local Open Scope string_scope.
Local Open Scope list_scope.

(** ** Python values *)

(** The values [json.load] returns and [json.dump] accepts.  A [dict] is
    kept as an association list in insertion order, which is the order
    [json.dump] writes the members in.  Numbers are integers: the script
    itself only ever creates the integer [1]. *)
Inductive json : Type :=
| JNone
| JBool (b : bool)
| JInt (z : Z)
| JStr (s : string)
| JList (l : list json)
| JDict (d : list (string * json)).

(** Exceptions other than [SystemExit] that the script can raise and
    does not catch. *)
Inductive exn : Type :=
| KeyError (k : string)
| TypeError
| JSONDecodeError
| FileNotFoundError (p : string)
| OSError (p : string).

Module Dict.

(** [d.get(k)] *)
Fixpoint get {V : Type} (k : string) (d : list (string * V)) : option V :=
  match d with
  | [] => None
  | (k', v) :: d' => if String.eqb k' k then Some v else get k d'
  end.

(** [d[k] = v]: an existing key keeps its position, a new key goes last. *)
Fixpoint set {V : Type} (k : string) (v : V) (d : list (string * V))
  : list (string * V) :=
  match d with
  | [] => [(k, v)]
  | (k', v') :: d' =>
      if String.eqb k' k then (k', v) :: d' else (k', v') :: set k v d'
  end.

Definition keys {V : Type} (d : list (string * V)) : list string :=
  map fst d.

End Dict.

(** A Python [dict] has no two equal keys; [json_wf] says so at every
    level of a value. *)
Fixpoint json_wf (v : json) : Prop :=
  match v with
  | JList l => (fix all (l : list json) : Prop :=
                  match l with
                  | [] => True
                  | x :: l' => json_wf x /\ all l'
                  end) l
  | JDict d => NoDup (Dict.keys d) /\
               (fix all (d : list (string * json)) : Prop :=
                  match d with
                  | [] => True
                  | (_, x) :: d' => json_wf x /\ all d'
                  end) d
  | _ => True
  end.

(** [o[k]] for a string [k]. *)
Definition getitem (o : json) (k : string) : exn + json :=
  match o with
  | JDict d => match Dict.get k d with
               | Some v => inr v
               | None => inl (KeyError k)
               end
  | _ => inl TypeError
  end.

(** [o[k] = v] for a string [k]. *)
Definition setitem (o : json) (k : string) (v : json) : exn + json :=
  match o with
  | JDict d => inr (JDict (Dict.set k v d))
  | _ => inl TypeError
  end.

(** The scalars at the leaves of a value. *)
Fixpoint leaves (v : json) : list json :=
  match v with
  | JList l => (fix go (l : list json) : list json :=
                  match l with
                  | [] => []
                  | x :: l' => leaves x ++ go l'
                  end) l
  | JDict d => (fix go (d : list (string * json)) : list json :=
                  match d with
                  | [] => []
                  | (_, x) :: d' => leaves x ++ go d'
                  end) d
  | _ => [v]
  end.

(** The number of nodes of a value. *)
Fixpoint size (v : json) : nat :=
  match v with
  | JList l => S ((fix go (l : list json) : nat :=
                     match l with
                     | [] => 0
                     | x :: l' => size x + go l'
                     end) l)
  | JDict d => S ((fix go (d : list (string * json)) : nat :=
                     match d with
                     | [] => 0
                     | (_, x) :: d' => size x + go d'
                     end) d)
  | _ => 1
  end.

(** ** The workbook *)

Record worksheet : Type := Worksheet {
  title : string;
  cells : gmap string json
}.

Record workbook : Type := Workbook {
  worksheets : list worksheet
}.

(** [wb.sheetnames] *)
Definition sheetnames (wb : workbook) : list string :=
  map title (worksheets wb).

(** ** The extractor *)

Definition projection_year : json :=
  JDict [("annuity", JNone); ("tspWithdrawal", JNone);
         ("expenses", JNone); ("surplus", JNone)].

Definition extract_gs_straight_through (wb : workbook) : json :=
  JDict [
    ("status", JStr "pending");
    ("description",
      JStr "Full GS career, standard FERS retirement at age 57 with 30 years service");
    ("expectedValues", JDict [
      ("careerProfile", JDict [
        ("hireDate", JNone);
        ("retirementDate", JNone);
        ("birthDate", JNone)]);
      ("annuityCalculation", JDict [
        ("high3Salary", JNone);
        ("creditableServiceYears", JNone);
        ("multiplier", JNone);
        ("grossAnnuity", JNone);
        ("reductionFactor", JNone);
        ("netAnnuity", JNone)]);
      ("tspProjection", JDict [
        ("currentBalance", JNone);
        ("projectedBalanceAtRetirement", JNone);
        ("monthlyContribution", JNone);
        ("assumedGrowthRate", JNone)]);
      ("fersSupplement", JDict [
        ("eligible", JNone);
        ("monthlyAmount", JNone);
        ("annualAmount", JNone)]);
      ("projectionYears", JDict [
        ("year1", projection_year);
        ("year10", projection_year);
        ("year20", projection_year);
        ("year30", projection_year)])]);
    ("notes", JList [
      JStr "TODO: Identify which sheet contains the GS scenario data";
      JStr "TODO: Map cell references for each value above";
      JStr "TODO: Extract values and populate expectedValues";
      JStr "Tolerances: currency ±$1.00, percentages ±0.001%"])
  ].

(** ** Command line *)

(** The namespace [parser.parse_args()] returns. *)
Record Namespace : Type := mkNamespace {
  scenario : string;
  output : string;
  spreadsheet : string
}.

Inductive cli_option : Type := OptScenario | OptOutput | OptSpreadsheet.

(** The three [add_argument] defaults. *)
Definition parser_defaults : Namespace :=
  {| scenario := "gs-straight-through";
     output := "app/tests/scenarios/fixtures/baseline.json";
     spreadsheet := "Retire-original.xlsx" |}.

Definition set_option (ns : Namespace) (o : cli_option * string) : Namespace :=
  match o with
  | (OptScenario, s) =>
      {| scenario := s; output := output ns; spreadsheet := spreadsheet ns |}
  | (OptOutput, s) =>
      {| scenario := scenario ns; output := s; spreadsheet := spreadsheet ns |}
  | (OptSpreadsheet, s) =>
      {| scenario := scenario ns; output := output ns; spreadsheet := s |}
  end.

(** The namespace for the options given on the command line, in order:
    an option that is not given keeps its default, a repeated one keeps
    its last value. *)
Definition namespace_of_options (given : list (cli_option * string)) : Namespace :=
  fold_left set_option given parser_defaults.

(** ** Paths *)

(** [Path(text)] on a POSIX system, as far as the script depends on it:
    the text the path prints as and is opened by.  [pathlib] keeps a
    leading "/" (and exactly two leading slashes as "//"), drops empty
    components and "." components, joins the rest with "/", and prints
    the empty path as ".".  It does not resolve ".." or symbolic links. *)
Fixpoint split_sep (s : string) : list string :=
  match s with
  | EmptyString => [EmptyString]
  | String c rest =>
      if Ascii.eqb c "/"
      then EmptyString :: split_sep rest
      else match split_sep rest with
           | x :: xs => String c x :: xs
           | [] => [String c EmptyString]
           end
  end.

Definition splitroot (p : string) : string * string :=
  match p with
  | String c0 rest0 =>
      if Ascii.eqb c0 "/"
      then match rest0 with
           | String c1 rest1 =>
               if Ascii.eqb c1 "/"
               then match rest1 with
                    | String c2 _ =>
                        if Ascii.eqb c2 "/" then ("/", rest0) else ("//", rest1)
                    | EmptyString => ("//", rest1)
                    end
               else ("/", rest0)
           | EmptyString => ("/", rest0)
           end
      else (EmptyString, p)
  | EmptyString => (EmptyString, p)
  end.

Definition Path (text : string) : string :=
  let '(root, rel) := splitroot text in
  let parsed :=
    List.filter (fun x => negb (String.eqb x EmptyString) && negb (String.eqb x "."))
                (split_sep rel) in
  match root, parsed with
  | EmptyString, [] => "."
  | _, _ => root +:+ String.concat "/" parsed
  end.

(** [spreadsheet_path = Path(args.spreadsheet)] and
    [output_path = Path(args.output)]: every later use of the two options
    in [main] goes through these. *)
Definition spreadsheet_path (args : Namespace) : string := Path (spreadsheet args).
Definition output_path (args : Namespace) : string := Path (output args).

Arguments spreadsheet_path : simpl never.
Arguments output_path : simpl never.

(** ** Process state and the monad of the script *)

(** Files are regular files named by their path.  [unwritable] is the set
    of paths that cannot be opened for writing: the directory is missing,
    the path is a directory, or permission is denied; the script never
    changes it.  [stdout] and [stderr] hold what was written, one entry
    per [print] call (the newline [print] adds is left out). *)
Record world : Type := World {
  fs : gmap string string;
  stdout : list string;
  stderr : list string;
  unwritable : gset string
}.

(** How a computation stops early: [sys.exit(code)] or an exception
    nobody catches. *)
Inductive stop : Type :=
| SysExit (code : Z)
| Raise (e : exn).

Inductive result (A : Type) : Type :=
| Done (a : A)
| Stop (s : stop).
Arguments Done {A} a.
Arguments Stop {A} s.

Definition M (A : Type) : Type := world -> world * result A.

Definition ret {A : Type} (a : A) : M A := fun w => (w, Done a).

Definition bind {A B : Type} (m : M A) (k : A -> M B) : M B :=
  fun w => match m w with
           | (w', Done a) => k a w'
           | (w', Stop s) => (w', Stop s)
           end.

Declare Scope script_scope.
Delimit Scope script_scope with script.
Notation "x <- m ;; k" := (bind m (fun x => k))
  (at level 100, m at next level, right associativity) : script_scope.
Notation "m ;; k" := (bind m (fun _ => k))
  (at level 100, right associativity) : script_scope.
Local Open Scope script_scope.

Definition sys_exit {A : Type} (code : Z) : M A :=
  fun w => (w, Stop (SysExit code)).

Definition raise {A : Type} (e : exn) : M A :=
  fun w => (w, Stop (Raise e)).

(** Lift a pure step that may raise. *)
Definition lift {A : Type} (r : exn + A) : M A :=
  match r with
  | inl e => raise e
  | inr a => ret a
  end.

(** [print(s)] *)
Definition print (s : string) : M unit :=
  fun w => ({| fs := fs w; stdout := stdout w ++ [s]; stderr := stderr w;
               unwritable := unwritable w |},
            Done tt).

(** A write to [sys.stderr]; the script has none of its own, [argparse]
    reports a bad command line this way. *)
Definition eprint (s : string) : M unit :=
  fun w => ({| fs := fs w; stdout := stdout w; stderr := stderr w ++ [s];
               unwritable := unwritable w |}, Done tt).

(** [for x in l: body(x)] *)
Fixpoint for_each {A : Type} (l : list A) (body : A -> M unit) : M unit :=
  match l with
  | [] => ret tt
  | x :: l' => body x ;; for_each l' body
  end.

(** [Path(p).exists()] *)
Definition path_exists (p : string) : M bool :=
  fun w => (w, Done (bool_decide (is_Some (fs w !! p)))).

(** [open(p).read()] *)
Definition read_text (p : string) : M string :=
  fun w => match fs w !! p with
           | Some t => (w, Done t)
           | None => (w, Stop (Raise (FileNotFoundError p)))
           end.

(** Whether [open(p, 'w')] goes through. *)
Definition can_write (w : world) (p : string) : bool :=
  bool_decide (p ∉ unwritable w).

(** [open(p, 'w')] creates the file or truncates it; on a path that cannot
    be opened for writing it raises [OSError] (in Python one of its
    subclasses: [FileNotFoundError] for a missing directory,
    [IsADirectoryError], [PermissionError]) and leaves the files alone. *)
Definition open_w (p : string) : M unit :=
  fun w => if can_write w p
           then ({| fs := <[p := EmptyString]> (fs w); stdout := stdout w;
                    stderr := stderr w; unwritable := unwritable w |}, Done tt)
           else (w, Stop (Raise (OSError p))).

(** [f.write(t)] on a file just opened with ['w'], then closing it. *)
Definition write_text (p : string) (t : string) : M unit :=
  fun w => ({| fs := <[p := t]> (fs w); stdout := stdout w; stderr := stderr w;
               unwritable := unwritable w |},
            Done tt).

(** The document the script starts from when the output file is absent. *)
Definition default_baseline : json :=
  JDict [
    ("schemaVersion", JInt 1);
    ("extractionNotes", JDict [
      ("method", JStr "Python script (see scripts/extract-baseline.py)");
      ("tolerances", JDict [
        ("currency_annual", JStr "±$1.00");
        ("currency_monthly", JStr "±$0.10");
        ("percentages", JStr "±0.001%");
        ("dates", JStr "exact")])]);
    ("scenarios", JDict [])
  ].

Definition newline : string := String "010"%char EmptyString.

(** ** Reading the command line *)

(** The command line as [argparse] reads it: options it accepts, each
    with its value; a request for help, with the help text; or a command
    line it rejects (an unknown or ambiguous option, a missing value, a
    stray argument), with the usage message. *)
Inductive command_line : Type :=
| Options (given : list (cli_option * string))
| HelpRequested (help : string)
| Rejected (usage : string).

(** [parser.parse_args()]: the namespace, or the end of the process, with
    status 0 after the help text on standard output and with status 2
    after the usage message on standard error. *)
Definition parse_args (cl : command_line) : M Namespace :=
  match cl with
  | Options given => ret (namespace_of_options given)
  | HelpRequested help => print help ;; sys_exit 0
  | Rejected usage => eprint usage ;; sys_exit 2
  end.

(** ** A reference [json] codec

    [RefJson.dumps] lays a value out the way [json.dumps(v, indent=2)]
    does and [RefJson.loads] reads JSON text back, for the values of type
    [json].  Inside strings the codec escapes the quote, the backslash,
    newline, carriage return and tab, and writes every other character as
    it is, where Python would write a [\u] escape; the statements about
    the script only use the contract, which both codecs meet. *)
Module RefJson.

Local Open Scope char_scope.

Definition text : Type := list ascii.

Definition lit (s : string) : text := list_ascii_of_string s.

(** *** Writing *)

Definition newline_indent (level : nat) : text :=
  "010" :: repeat " " (2 * level).

Fixpoint uint_chars (u : Decimal.uint) : text :=
  match u with
  | Decimal.Nil => []
  | Decimal.D0 u => "0" :: uint_chars u
  | Decimal.D1 u => "1" :: uint_chars u
  | Decimal.D2 u => "2" :: uint_chars u
  | Decimal.D3 u => "3" :: uint_chars u
  | Decimal.D4 u => "4" :: uint_chars u
  | Decimal.D5 u => "5" :: uint_chars u
  | Decimal.D6 u => "6" :: uint_chars u
  | Decimal.D7 u => "7" :: uint_chars u
  | Decimal.D8 u => "8" :: uint_chars u
  | Decimal.D9 u => "9" :: uint_chars u
  end.

Definition int_chars (z : Z) : text :=
  match Z.to_int z with
  | Decimal.Pos u => uint_chars u
  | Decimal.Neg u => "-" :: uint_chars u
  end.

Definition escape_char (c : ascii) : text :=
  if Ascii.eqb c "034" then ["\"; "034"]
  else if Ascii.eqb c "\" then ["\"; "\"]
  else if Ascii.eqb c "010" then ["\"; "n"]
  else if Ascii.eqb c "013" then ["\"; "r"]
  else if Ascii.eqb c "009" then ["\"; "t"]
  else [c].

Fixpoint escape (s : string) : text :=
  match s with
  | EmptyString => []
  | String c s' => escape_char c ++ escape s'
  end.

Definition quote (s : string) : text := "034" :: escape s ++ ["034"].

Fixpoint encode (level : nat) (v : json) : text :=
  match v with
  | JNone => lit "null"
  | JBool true => lit "true"
  | JBool false => lit "false"
  | JInt z => int_chars z
  | JStr s => quote s
  | JList [] => lit "[]"
  | JList (x :: l) =>
      "[" :: newline_indent (S level) ++ encode (S level) x ++
      (fix items (l : list json) : text :=
         match l with
         | [] => []
         | y :: l' =>
             "," :: newline_indent (S level) ++ encode (S level) y ++ items l'
         end) l ++
      newline_indent level ++ ["]"]
  | JDict [] => lit "{}"
  | JDict ((k, x) :: d) =>
      "{" :: newline_indent (S level) ++ quote k ++ lit ": " ++ encode (S level) x ++
      (fix members (d : list (string * json)) : text :=
         match d with
         | [] => []
         | (k', y) :: d' =>
             "," :: newline_indent (S level) ++ quote k' ++ lit ": " ++
             encode (S level) y ++ members d'
         end) d ++
      newline_indent level ++ ["}"]
  end.

Definition dumps (v : json) : string := string_of_list_ascii (encode 0 v).

(** *** Reading *)

Definition is_space (c : ascii) : bool :=
  Ascii.eqb c " " || Ascii.eqb c "010" ||
  Ascii.eqb c "013" || Ascii.eqb c "009".

Fixpoint skip_ws (s : text) : text :=
  match s with
  | c :: r => if is_space c then skip_ws r else s
  | [] => []
  end.

Definition digit_of (c : ascii) : option (Decimal.uint -> Decimal.uint) :=
  if Ascii.eqb c "0" then Some Decimal.D0
  else if Ascii.eqb c "1" then Some Decimal.D1
  else if Ascii.eqb c "2" then Some Decimal.D2
  else if Ascii.eqb c "3" then Some Decimal.D3
  else if Ascii.eqb c "4" then Some Decimal.D4
  else if Ascii.eqb c "5" then Some Decimal.D5
  else if Ascii.eqb c "6" then Some Decimal.D6
  else if Ascii.eqb c "7" then Some Decimal.D7
  else if Ascii.eqb c "8" then Some Decimal.D8
  else if Ascii.eqb c "9" then Some Decimal.D9
  else None.

(** The longest run of digits at the front of the text. *)
Fixpoint lex_uint (s : text) : Decimal.uint * text :=
  match s with
  | c :: r =>
      match digit_of c with
      | Some d => let (u, r') := lex_uint r in (d u, r')
      | None => (Decimal.Nil, s)
      end
  | [] => (Decimal.Nil, [])
  end.

Definition lex_int (s : text) : option (Z * text) :=
  match s with
  | "-" :: r =>
      match lex_uint r with
      | (Decimal.Nil, _) => None
      | (u, r') => Some (Z.of_int (Decimal.Neg u), r')
      end
  | _ =>
      match lex_uint s with
      | (Decimal.Nil, _) => None
      | (u, r') => Some (Z.of_int (Decimal.Pos u), r')
      end
  end.

Definition unescape (c : ascii) : option ascii :=
  if Ascii.eqb c "034" then Some "034"
  else if Ascii.eqb c "\" then Some "\"
  else if Ascii.eqb c "/" then Some "/"
  else if Ascii.eqb c "n" then Some "010"
  else if Ascii.eqb c "r" then Some "013"
  else if Ascii.eqb c "t" then Some "009"
  else if Ascii.eqb c "b" then Some "008"
  else if Ascii.eqb c "f" then Some "012"
  else None.

(** The rest of a string literal, after its opening quote. *)
Fixpoint lex_string (s : text) : option (string * text) :=
  match s with
  | [] => None
  | c :: r =>
      if Ascii.eqb c "034" then Some (EmptyString, r)
      else if Ascii.eqb c "\" then
        match r with
        | e :: r' =>
            match unescape e, lex_string r' with
            | Some c', Some (t, r'') => Some (String c' t, r'')
            | _, _ => None
            end
        | [] => None
        end
      else
        match lex_string r with
        | Some (t, r') => Some (String c t, r')
        | None => None
        end
  end.

Section Parse.

(** The parser of one value, one level further down. *)
Variable parse_value : text -> option (json * text).

(** [v, v, ... ]] after the opening bracket of a list that is not empty. *)
Fixpoint parse_items (n : nat) (s : text) : option (list json * text) :=
  match n with
  | O => None
  | S n' =>
      match parse_value s with
      | Some (v, r) =>
          match skip_ws r with
          | c :: r' =>
              if Ascii.eqb c "," then
                match parse_items n' r' with
                | Some (vs, r'') => Some (v :: vs, r'')
                | None => None
                end
              else if Ascii.eqb c "]" then Some ([v], r')
              else None
          | [] => None
          end
      | None => None
      end
  end.

(** ["k": v, "k": v, ... }] after the opening brace of a dict that is
    not empty. *)
Fixpoint parse_members (n : nat) (s : text)
  : option (list (string * json) * text) :=
  match n with
  | O => None
  | S n' =>
      match skip_ws s with
      | q :: r0 =>
          if Ascii.eqb q "034" then
            match lex_string r0 with
            | Some (k, r1) =>
                match skip_ws r1 with
                | c :: r2 =>
                    if Ascii.eqb c ":" then
                      match parse_value r2 with
                      | Some (v, r3) =>
                          match skip_ws r3 with
                          | c' :: r4 =>
                              if Ascii.eqb c' "," then
                                match parse_members n' r4 with
                                | Some (kvs, r5) => Some ((k, v) :: kvs, r5)
                                | None => None
                                end
                              else if Ascii.eqb c' "}" then Some ([(k, v)], r4)
                              else None
                          | [] => None
                          end
                      | None => None
                      end
                    else None
                | [] => None
                end
            | None => None
            end
          else None
      | [] => None
      end
  end.

End Parse.

(** A dict from its members in the order read: a repeated key keeps its
    first position and its last value, as in Python. *)
Definition dict_of_members (kvs : list (string * json)) : list (string * json) :=
  fold_left (fun d kv => Dict.set (fst kv) (snd kv) d) kvs [].

Definition starts_with (p : string) (s : text) : option text :=
  let p' := lit p in
  if bool_decide (take (length p') s = p') then Some (drop (length p') s) else None.

Fixpoint parse_value (fuel : nat) (s : text) : option (json * text) :=
  match fuel with
  | O => None
  | S fuel' =>
      match skip_ws s with
      | [] => None
      | c :: r =>
          if Ascii.eqb c "034" then
            match lex_string r with
            | Some (t, r') => Some (JStr t, r')
            | None => None
            end
          else if Ascii.eqb c "[" then
            match skip_ws r with
            | c' :: r' =>
                if Ascii.eqb c' "]" then Some (JList [], r')
                else match parse_items (parse_value fuel') fuel' r with
                     | Some (vs, r'') => Some (JList vs, r'')
                     | None => None
                     end
            | [] => None
            end
          else if Ascii.eqb c "{" then
            match skip_ws r with
            | c' :: r' =>
                if Ascii.eqb c' "}" then Some (JDict [], r')
                else match parse_members (parse_value fuel') fuel' r with
                     | Some (kvs, r'') => Some (JDict (dict_of_members kvs), r'')
                     | None => None
                     end
            | [] => None
            end
          else if Ascii.eqb c "n" then
            match starts_with "ull" r with
            | Some r' => Some (JNone, r')
            | None => None
            end
          else if Ascii.eqb c "t" then
            match starts_with "rue" r with
            | Some r' => Some (JBool true, r')
            | None => None
            end
          else if Ascii.eqb c "f" then
            match starts_with "alse" r with
            | Some r' => Some (JBool false, r')
            | None => None
            end
          else
            match lex_int (c :: r) with
            | Some (z, r') => Some (JInt z, r')
            | None => None
            end
      end
  end.

Definition loads (t : string) : option json :=
  let s := list_ascii_of_string t in
  match parse_value (S (length s)) s with
  | Some (v, r) =>
      match skip_ws r with
      | [] => Some v
      | _ :: _ => None
      end
  | None => None
  end.

End RefJson.

(** A stand-in for [openpyxl] on concrete files: a file is a workbook when
    its content begins with the zip signature, and every workbook has the
    sheets "Basic Calculator" and "Examples". *)
Definition demo_workbook : workbook :=
  {| worksheets := [ {| title := "Basic Calculator"; cells := ∅ |};
                     {| title := "Examples"; cells := ∅ |} ] |}.

Definition demo_load_workbook (p content : string) : string + workbook :=
  if String.prefix "PK" content
  then inr demo_workbook
  else inl "File is not a zip file".

(** [print] of several lines in a row. *)
Definition say (lines : list string) (w : world) : world :=
  {| fs := fs w; stdout := stdout w ++ lines; stderr := stderr w;
     unwritable := unwritable w |}.

(** A document the merge accepts: a dict whose ["scenarios"] is a dict. *)
Definition scenarios_of (b : json) : option (list (string * json)) :=
  match b with
  | JDict d => match Dict.get "scenarios" d with
               | Some (JDict scenarios) => Some scenarios
               | _ => None
               end
  | _ => None
  end.

(** ** The script *)

Section Script.

(** [json.dump(v, f, indent=2)] and [json.dumps(v, indent=2)] produce
    the same text, [json_dump v]; [json_load t] is [json.load] on a file
    holding [t], [None] when it raises. *)
Variable json_dump : json -> string.
Variable json_load : string -> option json.

(** [openpyxl.load_workbook(p, data_only=True)] on the file at [p] with
    the given content: the workbook, or the text of the exception. *)
Variable load_workbook : string -> string -> string + workbook.

(** The [try] block around [load_workbook]: every exception, a file that
    vanished included, ends up in the [except] branch with its text. *)
Definition try_load_workbook (p : string) : M (string + workbook) :=
  fun w => match fs w !! p with
           | Some content => (w, Done (load_workbook p content))
           | None => (w, Done (inl ("[Errno 2] No such file or directory: '"
                                      +:+ p +:+ "'")))
           end.

(** [json.load(f)] *)
Definition load_json (t : string) : M json :=
  match json_load t with
  | Some v => ret v
  | None => raise JSONDecodeError
  end.

(** [baseline["scenarios"][name] = extracted].  The inner dict is the
    very object stored in [baseline], so the assignment shows in
    [baseline]: the value under ["scenarios"] is replaced, in place, by
    the updated dict. *)
Definition update_scenario (baseline : json) (name : string) (extracted : json)
  : exn + json :=
  match getitem baseline "scenarios" with
  | inl e => inl e
  | inr scenarios =>
      match setitem scenarios name extracted with
      | inl e => inl e
      | inr scenarios' => setitem baseline "scenarios" scenarios'
      end
  end.

(** [main()] from line 91 on, with the namespace [parse_args] returned. *)
Definition main_body (args : Namespace) : M unit :=
  let spreadsheet_path := spreadsheet_path args in
  found <- path_exists spreadsheet_path ;;
  (if negb found
   then print ("Error: " +:+ spreadsheet_path +:+ " not found") ;; sys_exit 1
   else ret tt) ;;
  print ("Loading " +:+ spreadsheet_path +:+ "...") ;;
  loaded <- try_load_workbook spreadsheet_path ;;
  wb <- match loaded with
        | inr wb => ret wb
        | inl e => print ("Error loading workbook: " +:+ e) ;; sys_exit 1
        end ;;
  print "Available sheets:" ;;
  for_each (sheetnames wb) (fun sheet => print ("  - " +:+ sheet)) ;;
  extracted <- (if String.eqb (scenario args) "gs-straight-through"
                then ret (extract_gs_straight_through wb)
                else print ("Error: Unknown scenario '" +:+ scenario args +:+ "'") ;;
                     sys_exit 1) ;;
  let output_path := output_path args in
  present <- path_exists output_path ;;
  baseline <- (if present : bool
               then t <- read_text output_path ;; load_json t
               else ret default_baseline) ;;
  baseline <- lift (update_scenario baseline (scenario args) extracted) ;;
  open_w output_path ;;
  write_text output_path (json_dump baseline) ;;
  print (newline +:+ "Updated " +:+ output_path) ;;
  print (json_dump extracted).

(** The process once the command line is read: what the interpreter makes
    of the way [main] ends.  A normal return is status 0, [sys.exit(c)] is
    status [c], and an exception nobody catches is reported on standard
    error and is status 1. *)
Definition traceback (e : exn) : string :=
  match e with
  | KeyError k => "KeyError: '" +:+ k +:+ "'"
  | TypeError => "TypeError"
  | JSONDecodeError => "json.decoder.JSONDecodeError"
  | FileNotFoundError p => "FileNotFoundError: '" +:+ p +:+ "'"
  | OSError p => "OSError: '" +:+ p +:+ "'"
  end.

Definition run (args : Namespace) (w : world) : world * Z :=
  match main_body args w with
  | (w', Done _) => (w', 0%Z)
  | (w', Stop (SysExit c)) => (w', c)
  | (w', Stop (Raise e)) =>
      ({| fs := fs w'; stdout := stdout w';
          stderr := stderr w' ++ [traceback e];
          unwritable := unwritable w' |}, 1%Z)
  end.

(** [main()], from its first line: [parse_args], then the rest. *)
Definition main (cl : command_line) : M unit :=
  args <- parse_args cl ;;
  main_body args.

(** The interpreter around any computation, as in [run]. *)
Definition process (m : M unit) (w : world) : world * Z :=
  match m w with
  | (w', Done _) => (w', 0%Z)
  | (w', Stop (SysExit c)) => (w', c)
  | (w', Stop (Raise e)) =>
      ({| fs := fs w'; stdout := stdout w';
          stderr := stderr w' ++ [traceback e];
          unwritable := unwritable w' |}, 1%Z)
  end.

(** The module body: the import guard around [openpyxl], then [main]. *)
Definition script (openpyxl_installed : bool) (cl : command_line) (w : world)
  : world * Z :=
  if openpyxl_installed then process (main cl) w
  else ({| fs := fs w;
           stdout := stdout w ++
             ["Error: openpyxl not installed. Install with: pip install openpyxl"];
           stderr := stderr w;
           unwritable := unwritable w |}, 1%Z).

(** *** Vocabulary of the statements *)

(** The three ways a run is refused with a diagnostic. *)
Inductive failure : Type :=
| MissingInput
| UnreadableWorkbook (e : string)
| UnknownScenario (wb : workbook).

Definition failure_class (args : Namespace) (w : world) : option failure :=
  match fs w !! spreadsheet_path args with
  | None => Some MissingInput
  | Some content =>
      match load_workbook (spreadsheet_path args) content with
      | inl e => Some (UnreadableWorkbook e)
      | inr wb =>
          if String.eqb (scenario args) "gs-straight-through" then None
          else Some (UnknownScenario wb)
      end
  end.

(** The diagnostic of a failure: the argument of the one [print] call
    before [sys.exit(1)]. *)
Definition diagnostic (args : Namespace) (f : failure) : string :=
  match f with
  | MissingInput => "Error: " +:+ spreadsheet_path args +:+ " not found"
  | UnreadableWorkbook e => "Error loading workbook: " +:+ e
  | UnknownScenario _ => "Error: Unknown scenario '" +:+ scenario args +:+ "'"
  end.

(** What the run has printed before the diagnostic. *)
Definition progress (args : Namespace) (f : failure) : list string :=
  match f with
  | MissingInput => []
  | UnreadableWorkbook _ => ["Loading " +:+ spreadsheet_path args +:+ "..."]
  | UnknownScenario wb =>
      ["Loading " +:+ spreadsheet_path args +:+ "..."; "Available sheets:"] ++
      map (fun sheet => "  - " +:+ sheet) (sheetnames wb)
  end.

Definition failure_output (args : Namespace) (f : failure) : list string :=
  progress args f ++ [diagnostic args f].

(** What a run that got past the dispatch has printed by then. *)
Definition preamble (args : Namespace) (wb : workbook) : list string :=
  ["Loading " +:+ spreadsheet_path args +:+ "..."; "Available sheets:"] ++
  map (fun sheet => "  - " +:+ sheet) (sheetnames wb).

(** The document the merge starts from. *)
Definition read_baseline (args : Namespace) (w : world) : exn + json :=
  match fs w !! output_path args with
  | Some t => match json_load t with
              | Some b => inr b
              | None => inl JSONDecodeError
              end
  | None => inr default_baseline
  end.

(** The document the merge arrives at. *)
Definition merged (args : Namespace) (w : world) (wb : workbook) : exn + json :=
  match read_baseline args w with
  | inl e => inl e
  | inr b => update_scenario b (scenario args) (extract_gs_straight_through wb)
  end.

(** The document the run writes: the merged one, when the output path can
    be opened for writing. *)
Definition written (args : Namespace) (w : world) (wb : workbook) : exn + json :=
  match merged args w wb with
  | inl e => inl e
  | inr doc => if can_write w (output_path args) then inr doc
               else inl (OSError (output_path args))
  end.

(** The output file is absent, or holds a document the merge accepts. *)
Definition mergeable (args : Namespace) (w : world) : bool :=
  match fs w !! output_path args with
  | None => true
  | Some t =>
      match json_load t with
      | Some b => match scenarios_of b with
                  | Some _ => true
                  | None => false
                  end
      | None => false
      end
  end.

(** The scenarios on file before the run; none when there is no file. *)
Definition scenarios_before (args : Namespace) (w : world) : list (string * json) :=
  match read_baseline args w with
  | inr b => default [] (scenarios_of b)
  | inl _ => []
  end.

End Script.

(** Concrete files to run the script on. *)
Definition xlsx_bytes : string := "PK-workbook".

Definition empty_world : world :=
  {| fs := ∅; stdout := []; stderr := []; unwritable := ∅ |}.

(** Only the spreadsheet of the default command line is there. *)
Definition fresh_world : world :=
  {| fs := {[ "Retire-original.xlsx" := xlsx_bytes ]};
     stdout := []; stderr := []; unwritable := ∅ |}.

(** The spreadsheet is not a workbook. *)
Definition corrupt_world : world :=
  {| fs := {[ "Retire-original.xlsx" := "not a workbook" ]};
     stdout := []; stderr := []; unwritable := ∅ |}.

(** The output file of the default command line is there and holds [t]. *)
Definition world_with_output (t : string) : world :=
  {| fs := <[ "app/tests/scenarios/fixtures/baseline.json" := t ]>
             {[ "Retire-original.xlsx" := xlsx_bytes ]};
     stdout := []; stderr := []; unwritable := ∅ |}.

(** An output file that already has two scenarios, one of them stale. *)
Definition old_baseline : json :=
  JDict [
    ("schemaVersion", JInt 1);
    ("scenarios", JDict [
      ("leo", JDict [("status", JStr "complete")]);
      ("gs-straight-through", JDict [("status", JStr "stale")])])
  ].

(** Only the spreadsheet is there, and the output path of the default
    command line cannot be opened for writing (its directory is missing). *)
Definition readonly_world : world :=
  {| fs := {[ "Retire-original.xlsx" := xlsx_bytes ]};
     stdout := []; stderr := [];
     unwritable := {[ "app/tests/scenarios/fixtures/baseline.json" ]} |}.

Definition ref_main := main_body RefJson.dumps RefJson.loads demo_load_workbook.
Definition ref_run := run RefJson.dumps RefJson.loads demo_load_workbook.
Definition ref_script := script RefJson.dumps RefJson.loads demo_load_workbook.

(** * Facts *)

(** ** Dicts *)

Module DictFacts.

Lemma get_set_eq {V : Type} (k : string) (v : V) (d : list (string * V)) :
  Dict.get k (Dict.set k v d) = Some v.
Proof.
  induction d as [|[k' v'] d IH]; simpl.
  - by rewrite String.eqb_refl.
  - destruct (String.eqb k' k) eqn:E; simpl; rewrite E; done.
Qed.

Lemma get_set_ne {V : Type} (k k' : string) (v : V) (d : list (string * V)) :
  k ≠ k' → Dict.get k' (Dict.set k v d) = Dict.get k' d.
Proof.
  intros Hne. induction d as [|[k0 v0] d IH]; simpl.
  - destruct (String.eqb_spec k k'); [done | reflexivity].
  - destruct (String.eqb_spec k0 k) as [->|Hk]; simpl.
    + destruct (String.eqb_spec k k'); [done | reflexivity].
    + by rewrite IH.
Qed.

(** Assigning to a key that is there changes no key and moves none. *)
Lemma keys_set_present {V : Type} (k : string) (v : V) (d : list (string * V)) :
  is_Some (Dict.get k d) → Dict.keys (Dict.set k v d) = Dict.keys d.
Proof.
  induction d as [|[k0 v0] d IH]; simpl; intros [x Hx].
  - discriminate.
  - destruct (String.eqb k0 k) eqn:E; simpl; [done|].
    f_equal. apply IH. eauto.
Qed.

(** Assigning to a new key appends it. *)
Lemma set_absent {V : Type} (k : string) (v : V) (d : list (string * V)) :
  Dict.get k d = None → Dict.set k v d = d ++ [(k, v)].
Proof.
  induction d as [|[k0 v0] d IH]; simpl; intros H; [done|].
  destruct (String.eqb k0 k) eqn:E; [discriminate|].
  by rewrite IH.
Qed.

Lemma get_None_keys {V : Type} (k : string) (d : list (string * V)) :
  Dict.get k d = None ↔ k ∉ Dict.keys d.
Proof.
  induction d as [|[k0 v0] d IH]; simpl.
  - split; [intros _; apply not_elem_of_nil | done].
  - rewrite not_elem_of_cons.
    destruct (String.eqb_spec k0 k) as [->|Hk].
    + split; [discriminate | intros [? _]; done].
    + rewrite IH. split; [intros ?; split; [congruence | done] | intros [_ ?]; done].
Qed.

Lemma keys_set_NoDup {V : Type} (k : string) (v : V) (d : list (string * V)) :
  NoDup (Dict.keys d) → NoDup (Dict.keys (Dict.set k v d)).
Proof.
  intros Hd. destruct (Dict.get k d) eqn:E.
  - rewrite keys_set_present; eauto.
  - rewrite set_absent by done. unfold Dict.keys. rewrite map_app. simpl.
    apply NoDup_app. split; [done|]. split.
    + intros x Hx Hx'. apply list_elem_of_singleton in Hx'. subst x.
      by apply get_None_keys in E.
    + apply NoDup_singleton.
Qed.

(** Assigning the value that is already there changes nothing. *)
Lemma set_same {V : Type} (k : string) (v : V) (d : list (string * V)) :
  Dict.get k d = Some v → Dict.set k v d = d.
Proof.
  induction d as [|[k0 v0] d IH]; simpl; [done|].
  destruct (String.eqb k0 k) eqn:E.
  - by intros [= ->].
  - intros H. by rewrite IH.
Qed.

Lemma set_set {V : Type} (k : string) (v v' : V) (d : list (string * V)) :
  Dict.set k v' (Dict.set k v d) = Dict.set k v' d.
Proof.
  induction d as [|[k0 v0] d IH]; simpl.
  - by rewrite String.eqb_refl.
  - destruct (String.eqb k0 k) eqn:E; simpl; rewrite E; [done|]. by rewrite IH.
Qed.

End DictFacts.

(** ** Well-formed values *)

Lemma json_wf_list (l : list json) :
  json_wf (JList l) ↔ Forall json_wf l.
Proof.
  induction l as [|x l IH].
  - split; [intros _; constructor | intros _; exact I].
  - rewrite Forall_cons. rewrite <- IH. reflexivity.
Qed.

Lemma json_wf_dict (d : list (string * json)) :
  json_wf (JDict d) ↔ NoDup (Dict.keys d) ∧ Forall (λ kv, json_wf kv.2) d.
Proof.
  change (json_wf (JDict d)) with
    (NoDup (Dict.keys d) ∧
     (fix all (d : list (string * json)) : Prop :=
        match d with
        | [] => True
        | (_, x) :: d' => json_wf x ∧ all d'
        end) d).
  apply and_iff_compat_l.
  induction d as [|[k x] d IH].
  - split; [intros _; constructor | intros _; exact I].
  - rewrite Forall_cons. rewrite <- IH. reflexivity.
Qed.

Lemma Forall_dict_set {V : Type} (P : string * V → Prop) k v (d : list (string * V)) :
  (∀ k', P (k', v)) → Forall P d → Forall P (Dict.set k v d).
Proof.
  intros Hv. induction 1 as [|[k0 v0] d H0 Hd IH]; simpl.
  - constructor; [apply Hv | constructor].
  - destruct (String.eqb k0 k); constructor; auto.
Qed.

Lemma json_wf_set (k : string) (v : json) (d : list (string * json)) :
  json_wf v → json_wf (JDict d) → json_wf (JDict (Dict.set k v d)).
Proof.
  rewrite !json_wf_dict. intros Hv [Hnd Hall]. split.
  - by apply DictFacts.keys_set_NoDup.
  - by apply Forall_dict_set.
Qed.

Lemma json_wf_get (k : string) (v : json) (d : list (string * json)) :
  json_wf (JDict d) → Dict.get k d = Some v → json_wf v.
Proof.
  rewrite json_wf_dict. intros [_ Hall].
  induction Hall as [|[k0 v0] d H0 Hd IH]; simpl; [done|].
  destruct (String.eqb k0 k); [by intros [= <-] | done].
Qed.

Lemma NoDup_strings (l : list string) : bool_decide (NoDup l) = true → NoDup l.
Proof. apply bool_decide_eq_true_1. Qed.

Lemma default_baseline_wf : json_wf default_baseline.
Proof. simpl. repeat split; apply NoDup_strings; vm_compute; reflexivity. Qed.

Lemma extract_gs_straight_through_wf (wb : workbook) :
  json_wf (extract_gs_straight_through wb).
Proof. simpl. repeat split; apply NoDup_strings; vm_compute; reflexivity. Qed.

(** ** The monad *)

Lemma say_nil (w : world) : say [] w = w.
Proof. destruct w. unfold say. simpl. by rewrite app_nil_r. Qed.

Lemma say_say (l1 l2 : list string) (w : world) :
  say l2 (say l1 w) = say (l1 ++ l2) w.
Proof. unfold say. simpl. by rewrite app_assoc. Qed.

Lemma print_say (s : string) (w : world) : print s w = (say [s] w, Done tt).
Proof. reflexivity. Qed.

Lemma for_each_print (f : string → string) (l : list string) (w : world) :
  for_each l (λ x, print (f x)) w = (say (map f l) w, Done tt).
Proof.
  revert w. induction l as [|x l IH]; intros w; simpl.
  - unfold ret. by rewrite say_nil.
  - unfold bind. rewrite print_say, IH, say_say. reflexivity.
Qed.

Lemma path_exists_Some (p t : string) (w : world) :
  fs w !! p = Some t → path_exists p w = (w, Done true).
Proof.
  intros H. unfold path_exists. rewrite H.
  rewrite bool_decide_eq_true_2; [done | eauto].
Qed.

Lemma path_exists_None (p : string) (w : world) :
  fs w !! p = None → path_exists p w = (w, Done false).
Proof.
  intros H. unfold path_exists. rewrite H.
  rewrite bool_decide_eq_false_2; [done | by intros [? ?]].
Qed.

(** ** What [main] does, case by case *)

Section ScriptFacts.

Variable json_dump : json → string.
Variable json_load : string → option json.
Variable load_workbook : string → string → string + workbook.

Local Abbreviation main_body := (main_body json_dump json_load load_workbook).
Local Abbreviation run := (run json_dump json_load load_workbook).
Local Abbreviation main := (main json_dump json_load load_workbook).
Local Abbreviation script := (script json_dump json_load load_workbook).
Local Abbreviation failure_class := (failure_class load_workbook).
Local Abbreviation read_baseline := (read_baseline json_load).
Local Abbreviation merged := (merged json_load).
Local Abbreviation written := (written json_load).
Local Abbreviation mergeable := (mergeable json_load).
Local Abbreviation scenarios_before := (scenarios_before json_load).

Local Ltac step_exists H :=
  first [ rewrite (path_exists_Some _ _ _ H) | rewrite (path_exists_None _ _ H) ].

(** A run that is refused stops with [sys.exit(1)], having printed the
    lines of [failure_output] and nothing else, and touched no file. *)
Lemma main_body_failure (args : Namespace) (w : world) (f : failure) :
  failure_class args w = Some f →
  main_body args w = (say (failure_output args f) w, Stop (SysExit 1)).
Proof.
  unfold failure_class, main_body. intros Hf.
  destruct (fs w !! spreadsheet_path args) as [content|] eqn:Hsp.
  - unfold bind at 1. step_exists Hsp. simpl.
    unfold bind at 1. unfold ret at 1.
    unfold bind at 1. rewrite print_say.
    unfold bind at 1. unfold try_load_workbook at 1. simpl. rewrite Hsp.
    destruct (load_workbook (spreadsheet_path args) content) as [e|wb] eqn:Hload.
    + injection Hf as <-. unfold bind. rewrite print_say. unfold sys_exit.
      rewrite say_say. reflexivity.
    + destruct (String.eqb (scenario args) "gs-straight-through") eqn:Hsc;
        [discriminate|].
      injection Hf as <-.
      unfold bind at 1. unfold ret at 1.
      unfold bind at 1. rewrite print_say.
      unfold bind at 1. rewrite for_each_print.
      unfold bind at 1. unfold bind at 1. rewrite print_say. unfold sys_exit.
      rewrite !say_say. simpl. reflexivity.
  - injection Hf as <-.
    unfold bind at 1. step_exists Hsp. simpl.
    unfold bind at 1. unfold bind at 1. by rewrite print_say.
Qed.

(** A run that is not refused goes on to the merge: it stops on the
    exception the merge raises, or writes the merged document. *)
Lemma main_body_merge (args : Namespace) (w : world) (content : string) (wb : workbook) :
  fs w !! spreadsheet_path args = Some content →
  load_workbook (spreadsheet_path args) content = inr wb →
  scenario args = "gs-straight-through" →
  main_body args w =
    match written args w wb with
    | inl e => (say (preamble args wb) w, Stop (Raise e))
    | inr doc =>
        ({| fs := <[output_path args := json_dump doc]> (fs w);
            stdout := stdout w ++ preamble args wb ++
                      [newline +:+ "Updated " +:+ output_path args;
                       json_dump (extract_gs_straight_through wb)];
            stderr := stderr w; unwritable := unwritable w |}, Done tt)
    end.
Proof.
  intros Hsp Hload Hsc. unfold main_body.
  set (pre := preamble args wb).
  unfold bind at 1. step_exists Hsp. simpl.
  unfold bind at 1. unfold ret at 1.
  unfold bind at 1. rewrite print_say.
  unfold bind at 1. unfold try_load_workbook at 1. simpl. rewrite Hsp, Hload.
  unfold bind at 1. unfold ret at 1.
  unfold bind at 1. rewrite print_say.
  unfold bind at 1. rewrite for_each_print.
  rewrite Hsc. rewrite String.eqb_refl.
  unfold bind at 1. unfold ret at 1.
  rewrite !say_say.
  match goal with
  | |- context [say ?lines w] => change lines with pre
  end.
  unfold written, merged, read_baseline. rewrite Hsc.
  unfold bind at 1.
  assert (Hfs : fs (say pre w) = fs w) by reflexivity.
  destruct (fs w !! output_path args) as [t|] eqn:Hout.
  - rewrite (path_exists_Some (output_path args) t (say pre w) Hout).
    unfold bind at 1. unfold bind at 1. unfold read_text. rewrite Hfs, Hout.
    unfold load_json. destruct (json_load t) as [b|]; [|reflexivity].
    unfold ret at 1.
    destruct (update_scenario b "gs-straight-through"
                (extract_gs_straight_through wb)) as [e|doc]; [reflexivity|].
    simpl. unfold bind at 1. unfold ret at 1. unfold bind at 1. unfold open_w at 1.
    change (can_write (say pre w) (output_path args)) with (can_write w (output_path args)).
    destruct (can_write w (output_path args)); [|reflexivity].
    unfold bind, write_text, print, ret. simpl.
    rewrite insert_insert_eq. rewrite <- !app_assoc. reflexivity.
  - rewrite (path_exists_None (output_path args) (say pre w) Hout).
    unfold bind at 1. unfold ret at 1.
    destruct (update_scenario default_baseline "gs-straight-through"
                (extract_gs_straight_through wb)) as [e|doc]; [reflexivity|].
    simpl. unfold bind at 1. unfold ret at 1. unfold bind at 1. unfold open_w at 1.
    change (can_write (say pre w) (output_path args)) with (can_write w (output_path args)).
    destruct (can_write w (output_path args)); [|reflexivity].
    unfold bind, write_text, print, ret. simpl.
    rewrite insert_insert_eq. rewrite <- !app_assoc. reflexivity.
Qed.

(** Exactly one of the two lemmas above applies. *)
Lemma failure_class_None (args : Namespace) (w : world) :
  failure_class args w = None ↔
  ∃ content wb,
    fs w !! spreadsheet_path args = Some content ∧
    load_workbook (spreadsheet_path args) content = inr wb ∧
    scenario args = "gs-straight-through".
Proof.
  unfold failure_class. split.
  - destruct (fs w !! spreadsheet_path args) as [content|]; [|discriminate].
    destruct (load_workbook (spreadsheet_path args) content) as [e|wb] eqn:Hl;
      [discriminate|].
    destruct (String.eqb_spec (scenario args) "gs-straight-through");
      [|discriminate].
    intros _. by exists content, wb.
  - intros (content & wb & -> & -> & ->). reflexivity.
Qed.

Lemma run_failure (args : Namespace) (w : world) (f : failure) :
  failure_class args w = Some f →
  run args w = (say (failure_output args f) w, 1%Z).
Proof. intros Hf. unfold run. by rewrite (main_body_failure _ _ _ Hf). Qed.

Lemma run_merge (args : Namespace) (w : world) (content : string) (wb : workbook) :
  fs w !! spreadsheet_path args = Some content →
  load_workbook (spreadsheet_path args) content = inr wb →
  scenario args = "gs-straight-through" →
  run args w =
    match written args w wb with
    | inl e => ({| fs := fs w; stdout := stdout w ++ preamble args wb;
                   stderr := stderr w ++ [traceback e];
                   unwritable := unwritable w |}, 1%Z)
    | inr doc =>
        ({| fs := <[output_path args := json_dump doc]> (fs w);
            stdout := stdout w ++ preamble args wb ++
                      [newline +:+ "Updated " +:+ output_path args;
                       json_dump (extract_gs_straight_through wb)];
            stderr := stderr w; unwritable := unwritable w |}, 0%Z)
    end.
Proof.
  intros Hsp Hl Hsc. unfold run. rewrite (main_body_merge _ _ _ _ Hsp Hl Hsc).
  by destruct (written args w wb).
Qed.

(** The merge goes through exactly on a document with a ["scenarios"]
    dict, and then replaces that dict, in place, by the updated one. *)
Lemma update_scenario_Some (b : json) (name : string) (x : json)
    (scenarios : list (string * json)) :
  scenarios_of b = Some scenarios →
  ∃ d, b = JDict d ∧
       update_scenario b name x =
         inr (JDict (Dict.set "scenarios" (JDict (Dict.set name x scenarios)) d)).
Proof.
  unfold scenarios_of, update_scenario, getitem.
  destruct b as [| | | | |d]; try discriminate.
  destruct (Dict.get "scenarios" d) as [[| | | | |sc]|]; try discriminate.
  intros [= ->]. by exists d.
Qed.

Lemma update_scenario_None (b : json) (name : string) (x : json) :
  scenarios_of b = None →
  ∃ e, update_scenario b name x = inl e ∧
       (e = KeyError "scenarios" ∨ e = TypeError).
Proof.
  unfold scenarios_of, update_scenario, getitem.
  destruct b as [| | | | |d]; try (by eexists; eauto).
  destruct (Dict.get "scenarios" d) as [[| | | | |sc]|];
    try discriminate; intros _; simpl; eauto.
Qed.

Lemma scenarios_of_updated (d : list (string * json)) (sc : list (string * json)) :
  scenarios_of (JDict (Dict.set "scenarios" (JDict sc) d)) = Some sc.
Proof. unfold scenarios_of. by rewrite DictFacts.get_set_eq. Qed.

(** Merging the same record a second time changes nothing. *)
Lemma update_scenario_twice (b doc : json) (name : string) (x : json) :
  update_scenario b name x = inr doc →
  update_scenario doc name x = inr doc.
Proof.
  intros H. destruct (scenarios_of b) as [sc|] eqn:Hsc.
  - destruct (update_scenario_Some b name x sc Hsc) as (d & -> & Hu).
    rewrite Hu in H. injection H as <-.
    destruct (update_scenario_Some _ name x _
                (scenarios_of_updated d (Dict.set name x sc)))
      as (d' & [= <-] & ->).
    by rewrite !DictFacts.set_set.
  - destruct (update_scenario_None b name x Hsc) as (e & He & _). congruence.
Qed.

Lemma update_scenario_wf (b doc : json) (name : string) (x : json) :
  json_wf b → json_wf x →
  update_scenario b name x = inr doc → json_wf doc.
Proof.
  intros Hb Hx H. destruct (scenarios_of b) as [sc|] eqn:Hsc.
  - destruct (update_scenario_Some b name x sc Hsc) as (d & -> & Hu).
    rewrite Hu in H. injection H as <-.
    apply json_wf_set; [|done]. apply json_wf_set; [done|].
    unfold scenarios_of in Hsc.
    destruct (Dict.get "scenarios" d) as [[| | | | |sc']|] eqn:Hg; try discriminate.
    injection Hsc as ->. by apply (json_wf_get "scenarios" _ d).
  - destruct (update_scenario_None b name x Hsc) as (e & He & _). congruence.
Qed.

(** [mergeable] is what makes [merged] succeed. *)
Lemma merged_mergeable (args : Namespace) (w : world) (wb : workbook) :
  mergeable args w = true →
  ∃ b d,
    read_baseline args w = inr b ∧ b = JDict d ∧
    scenarios_of b = Some (scenarios_before args w) ∧
    merged args w wb =
      inr (JDict (Dict.set "scenarios"
                    (JDict (Dict.set (scenario args)
                              (extract_gs_straight_through wb)
                              (scenarios_before args w))) d)).
Proof.
  unfold mergeable, merged, scenarios_before, read_baseline.
  destruct (fs w !! output_path args) as [t|].
  - destruct (json_load t) as [b|]; [|discriminate].
    destruct (scenarios_of b) as [sc|] eqn:Hsc; [|discriminate]. intros _.
    destruct (update_scenario_Some b (scenario args)
                (extract_gs_straight_through wb) sc Hsc) as (d & -> & Hu).
    exists (JDict d), d. rewrite Hsc. simpl. by rewrite Hu.
  - intros _. eexists _, _. split; [reflexivity|]. split; [reflexivity|].
    split; reflexivity.
Qed.

Lemma merged_not_mergeable (args : Namespace) (w : world) (wb : workbook) :
  mergeable args w = false →
  ∃ e, merged args w wb = inl e ∧
       (e = JSONDecodeError ∨ e = KeyError "scenarios" ∨ e = TypeError).
Proof.
  unfold mergeable, merged, read_baseline.
  destruct (fs w !! output_path args) as [t|]; [|discriminate].
  destruct (json_load t) as [b|]; [|intros _; eauto].
  destruct (scenarios_of b) as [sc|] eqn:Hsc; [discriminate|]. intros _.
  destruct (update_scenario_None b (scenario args)
              (extract_gs_straight_through wb) Hsc) as (e & -> & He).
  exists e. split; [done|]. tauto.
Qed.

(** A document is written exactly when the merge arrives at it and the
    output path can be opened for writing. *)
Lemma written_inr (args : Namespace) (w : world) (wb : workbook) (doc : json) :
  written args w wb = inr doc ↔
  merged args w wb = inr doc ∧ can_write w (output_path args) = true.
Proof.
  unfold written. destruct (merged args w wb) as [e|doc'].
  - split; [discriminate | by intros [? _]].
  - destruct (can_write w (output_path args)).
    + split; [by intros [= ->] | by intros [[= ->] _]].
    + split; [discriminate | by intros [_ ?]].
Qed.

Lemma run_status_0 (args : Namespace) (w : world) :
  (run args w).2 = 0%Z ↔
  failure_class args w = None ∧ mergeable args w = true ∧
  can_write w (output_path args) = true.
Proof.
  destruct (failure_class args w) as [f|] eqn:Hf.
  - rewrite (run_failure _ _ _ Hf). simpl. split; [discriminate | by intros [? _]].
  - destruct (proj1 (failure_class_None args w) Hf) as (content & wb & Hsp & Hl & Hsc).
    rewrite (run_merge _ _ _ _ Hsp Hl Hsc). unfold written.
    destruct (mergeable args w) eqn:Hm.
    + destruct (merged_mergeable args w wb Hm) as (b & d & _ & _ & _ & ->).
      destruct (can_write w (output_path args)); simpl; [done|].
      split; [discriminate | by intros (_ & _ & ?)].
    + destruct (merged_not_mergeable args w wb Hm) as (e & -> & _). simpl.
      split; [discriminate | by intros (_ & ? & _)].
Qed.

(** ** The claims that need nothing of the libraries *)

(** C2.  When the --spreadsheet path does not exist the process ends with
    status 1, which is not zero, and the file system after the run is the
    file system before it: the output file is neither created nor
    modified.  All the run does is print the diagnostic. *)
Theorem missing_spreadsheet_exits_without_writing (args : Namespace) (w : world) :
  fs w !! spreadsheet_path args = None →
  (run args w).2 = 1%Z ∧ (run args w).2 ≠ 0%Z ∧
  fs (run args w).1 = fs w ∧
  fs (run args w).1 !! output_path args = fs w !! output_path args ∧
  stdout (run args w).1 =
    stdout w ++ ["Error: " +:+ spreadsheet_path args +:+ " not found"].
Proof.
  intros Hsp.
  assert (Hf : failure_class args w = Some MissingInput).
  { unfold failure_class. by rewrite Hsp. }
  rewrite (run_failure _ _ _ Hf). simpl. done.
Qed.

(** C3.  For a scenario name other than "gs-straight-through" the process
    ends with status 1, which is not zero, and no file is created or
    modified, whatever the spreadsheet is; when the spreadsheet loads,
    the run ends on the unknown-scenario diagnostic. *)
Theorem unknown_scenario_exits_without_writing (args : Namespace) (w : world) :
  scenario args ≠ "gs-straight-through" →
  (run args w).2 = 1%Z ∧ (run args w).2 ≠ 0%Z ∧
  fs (run args w).1 = fs w ∧
  fs (run args w).1 !! output_path args = fs w !! output_path args ∧
  ∀ content wb,
    fs w !! spreadsheet_path args = Some content →
    load_workbook (spreadsheet_path args) content = inr wb →
    main_body args w =
      (say (preamble args wb ++
            ["Error: Unknown scenario '" +:+ scenario args +:+ "'"]) w,
       Stop (SysExit 1)).
Proof.
  intros Hsc.
  destruct (failure_class args w) as [f|] eqn:Hf.
  - rewrite (run_failure _ _ _ Hf). simpl. repeat split; try done.
    intros content wb Hsp Hl.
    assert (Hf' : failure_class args w = Some (UnknownScenario wb)).
    { unfold failure_class. rewrite Hsp, Hl.
      by destruct (String.eqb_spec (scenario args) "gs-straight-through"). }
    by rewrite (main_body_failure _ _ _ Hf').
  - apply failure_class_None in Hf as (? & ? & _ & _ & ?). done.
Qed.

(** C7, as amended.  In each of the three failure classes the diagnostic
    is the argument of one [print] call and goes to standard output,
    after the progress lines printed so far; nothing is written to
    standard error, no file is touched, and the process ends with
    status 1. *)
Theorem failure_diagnostic_on_stdout (args : Namespace) (w : world) (f : failure) :
  failure_class args w = Some f →
  (run args w).2 = 1%Z ∧
  stdout (run args w).1 = stdout w ++ progress args f ++ [diagnostic args f] ∧
  stderr (run args w).1 = stderr w ∧
  fs (run args w).1 = fs w.
Proof. intros Hf. rewrite (run_failure _ _ _ Hf). simpl. done. Qed.

(** C8, as amended.  With no option on the command line [parse_args]
    returns "gs-straight-through", "app/tests/scenarios/fixtures/baseline.json"
    and "Retire-original.xlsx".  Once the command line is read, [main]
    calls [sys.exit(1)] exactly when the spreadsheet is missing, does not
    load, or the scenario is not recognised, and the status is then 1.
    The status is 0 exactly on success, that is when [main] returns: no
    failure class applies, the output file is absent or holds a document
    with a scenarios dict, and the output path can be opened for writing.
    In the remaining runs an exception goes uncaught and the status is 1
    as well.  A request for help ends with status 0 and a command line
    that [argparse] rejects with status 2, both before any file is
    looked at. *)
Theorem defaults_and_exit_status :
  (∀ w, parse_args (Options []) w =
          (w, Done {| scenario := "gs-straight-through";
                      output := "app/tests/scenarios/fixtures/baseline.json";
                      spreadsheet := "Retire-original.xlsx" |})) ∧
  (∀ (args : Namespace) (w : world),
    ((main_body args w).2 = Stop (SysExit 1) ↔
       fs w !! spreadsheet_path args = None ∨
       (∃ content e, fs w !! spreadsheet_path args = Some content ∧
                     load_workbook (spreadsheet_path args) content = inl e) ∨
       (∃ content wb, fs w !! spreadsheet_path args = Some content ∧
                      load_workbook (spreadsheet_path args) content = inr wb ∧
                      scenario args ≠ "gs-straight-through")) ∧
    ((main_body args w).2 = Stop (SysExit 1) → (run args w).2 = 1%Z) ∧
    ((run args w).2 = 0%Z ↔ (main_body args w).2 = Done tt) ∧
    ((run args w).2 = 0%Z ↔
       failure_class args w = None ∧ mergeable args w = true ∧
       can_write w (output_path args) = true) ∧
    ((run args w).2 = 1%Z ∧ (main_body args w).2 ≠ Stop (SysExit 1) ↔
       failure_class args w = None ∧
       (mergeable args w = false ∨ can_write w (output_path args) = false))) ∧
  (∀ (cl : command_line) (w : world),
    match cl with
    | Options given =>
        script true cl w = run (namespace_of_options given) w
    | HelpRequested help =>
        script true cl w = (say [help] w, 0%Z)
    | Rejected usage =>
        (script true cl w).2 = 2%Z ∧
        fs (script true cl w).1 = fs w ∧
        stdout (script true cl w).1 = stdout w ∧
        stderr (script true cl w).1 = stderr w ++ [usage]
    end).
Proof.
  split; [reflexivity|]. split; [|by intros [given|help|usage] w].
  intros args w.
  destruct (failure_class args w) as [f|] eqn:Hf.
  - pose proof (main_body_failure _ _ _ Hf) as Hmain.
    pose proof (run_failure _ _ _ Hf) as Hrun.
    rewrite Hmain, Hrun. simpl.
    split.
    { split; [intros _|done]. unfold failure_class in Hf.
      destruct (fs w !! spreadsheet_path args) as [content|]; [|by left].
      right. destruct (load_workbook (spreadsheet_path args) content) as [e|wb] eqn:Hl.
      - left. by exists content, e.
      - right. exists content, wb. repeat split; try done.
        destruct (String.eqb_spec (scenario args) "gs-straight-through");
          [discriminate | done]. }
    split; [done|]. split; [split; discriminate|].
    split; [split; [discriminate | by intros [? _]]|].
    split; [by intros [_ ?] | by intros [? _]].
  - destruct (proj1 (failure_class_None args w) Hf) as (content & wb & Hsp & Hl & Hsc).
    rewrite (run_merge _ _ _ _ Hsp Hl Hsc), (main_body_merge _ _ _ _ Hsp Hl Hsc).
    assert (Hno : ¬ (fs w !! spreadsheet_path args = None ∨
       (∃ content e, fs w !! spreadsheet_path args = Some content ∧
                     load_workbook (spreadsheet_path args) content = inl e) ∨
       (∃ content wb, fs w !! spreadsheet_path args = Some content ∧
                      load_workbook (spreadsheet_path args) content = inr wb ∧
                      scenario args ≠ "gs-straight-through"))).
    { intros [H|[(c & e & Hc & He)|(c & wb' & _ & _ & Hne)]]; [congruence| |done].
      rewrite Hsp in Hc. injection Hc as <-. congruence. }
    unfold written.
    destruct (mergeable args w) eqn:Hm.
    + destruct (merged_mergeable args w wb Hm) as (b & d & _ & _ & _ & ->).
      destruct (can_write w (output_path args)); simpl.
      * split; [split; [discriminate | done]|]. split; [discriminate|].
        split; [done|]. split; [done|].
        split; [by intros [? _] | intros [_ [?|?]]; discriminate].
      * split; [split; [discriminate | done]|]. split; [discriminate|].
        split; [split; discriminate|].
        split; [split; [discriminate | by intros (_ & _ & ?)]|].
        split; [intros _; split; [done | by right] | intros _; split; [done | discriminate]].
    + destruct (merged_not_mergeable args w wb Hm) as (e & -> & _). simpl.
      split; [split; [discriminate | done]|]. split; [discriminate|].
      split; [split; discriminate|].
      split; [split; [discriminate | by intros (_ & ? & _)]|].
      split; [intros _; split; [done | by left] | intros _; split; [done | discriminate]].
Qed.

End ScriptFacts.

(** C9.  The extractor does not look at the workbook: any two workbooks,
    whatever their sheets and cells, give the same record. *)
Theorem extract_gs_straight_through_constant (wb1 wb2 : workbook) :
  extract_gs_straight_through wb1 = extract_gs_straight_through wb2.
Proof. reflexivity. Qed.

(** ** The claims that rest on the contract of [json] *)

Section JsonContract.

Variable json_dump : json → string.
Variable json_load : string → option json.
Variable load_workbook : string → string → string + workbook.

(** What [json.dump] wrote, [json.load] reads back; and what [json.load]
    returns is a Python value: its dicts have no repeated key. *)
Hypothesis json_load_dump : ∀ v, json_wf v → json_load (json_dump v) = Some v.
Hypothesis json_load_wf : ∀ t v, json_load t = Some v → json_wf v.

Local Abbreviation main_body := (main_body json_dump json_load load_workbook).
Local Abbreviation run := (run json_dump json_load load_workbook).
Local Abbreviation main := (main json_dump json_load load_workbook).
Local Abbreviation script := (script json_dump json_load load_workbook).
Local Abbreviation failure_class := (failure_class load_workbook).
Local Abbreviation read_baseline := (read_baseline json_load).
Local Abbreviation merged := (merged json_load).
Local Abbreviation written := (written json_load).
Local Abbreviation mergeable := (mergeable json_load).
Local Abbreviation scenarios_before := (scenarios_before json_load).

Lemma read_baseline_wf (args : Namespace) (w : world) (b : json) :
  read_baseline args w = inr b → json_wf b.
Proof.
  unfold read_baseline.
  destruct (fs w !! output_path args) as [t|].
  - destruct (json_load t) as [b'|] eqn:Hl; [|discriminate].
    intros [= <-]. by apply (json_load_wf t).
  - intros [= <-]. apply default_baseline_wf.
Qed.

Lemma merged_wf (args : Namespace) (w : world) (wb : workbook) (doc : json) :
  merged args w wb = inr doc → json_wf doc.
Proof.
  unfold merged. destruct (read_baseline args w) as [e|b] eqn:Hb; [discriminate|].
  apply update_scenario_wf.
  - by apply (read_baseline_wf args w).
  - apply extract_gs_straight_through_wf.
Qed.

(** A successful run, spelled out. *)
Lemma run_success (args : Namespace) (w w' : world) :
  run args w = (w', 0%Z) →
  ∃ content wb b d,
    fs w !! spreadsheet_path args = Some content ∧
    load_workbook (spreadsheet_path args) content = inr wb ∧
    scenario args = "gs-straight-through" ∧
    read_baseline args w = inr b ∧ b = JDict d ∧
    scenarios_of b = Some (scenarios_before args w) ∧
    let doc := JDict (Dict.set "scenarios"
                        (JDict (Dict.set (scenario args)
                                  (extract_gs_straight_through wb)
                                  (scenarios_before args w))) d) in
    json_wf doc ∧
    w' = {| fs := <[output_path args := json_dump doc]> (fs w);
            stdout := stdout w ++ preamble args wb ++
                      [newline +:+ "Updated " +:+ output_path args;
                       json_dump (extract_gs_straight_through wb)];
            stderr := stderr w; unwritable := unwritable w |}.
Proof.
  intros Hrun.
  assert (H0 : (run args w).2 = 0%Z) by (by rewrite Hrun).
  apply run_status_0 in H0 as (Hf & Hm & Hcw).
  apply failure_class_None in Hf as (content & wb & Hsp & Hl & Hsc).
  destruct (merged_mergeable json_load args w wb Hm) as (b & d & Hb & -> & Hsb & Hmerged).
  exists content, wb, (JDict d), d.
  rewrite (run_merge _ _ _ _ _ _ _ Hsp Hl Hsc) in Hrun.
  unfold written in Hrun. rewrite Hmerged, Hcw in Hrun.
  injection Hrun as <-.
  do 6 (split; [done|]). cbv zeta.
  split; [by apply (merged_wf args w wb) | reflexivity].
Qed.

(** C1, as amended.  With the valid scenario name, a workbook that loads,
    an output file that is absent or holds a document with a scenarios
    dict, and an output path that can be opened for writing, the run
    succeeds and leaves an output file that parses to a document in which
    scenarios[name] is the extractor's record; every other scenario is
    what it was before the run, and so is every other member of the
    document and every other file. *)
Theorem merge_overwrites_one_scenario
    (args : Namespace) (w : world) (content : string) (wb : workbook) :
  fs w !! spreadsheet_path args = Some content →
  load_workbook (spreadsheet_path args) content = inr wb →
  scenario args = "gs-straight-through" →
  mergeable args w = true →
  can_write w (output_path args) = true →
  ∃ w' doc after,
    run args w = (w', 0%Z) ∧
    fs w' !! output_path args = Some (json_dump doc) ∧
    json_load (json_dump doc) = Some doc ∧
    scenarios_of doc = Some after ∧
    after = Dict.set (scenario args) (extract_gs_straight_through wb)
              (scenarios_before args w) ∧
    Dict.get (scenario args) after = Some (extract_gs_straight_through wb) ∧
    (∀ other, other ≠ scenario args →
       Dict.get other after = Dict.get other (scenarios_before args w)) ∧
    (∀ b k, read_baseline args w = inr b → k ≠ "scenarios" →
       getitem doc k = getitem b k) ∧
    (∀ p, p ≠ output_path args → fs w' !! p = fs w !! p).
Proof.
  intros Hsp Hl Hsc Hm Hcw.
  destruct (merged_mergeable json_load args w wb Hm) as (b & d & Hb & -> & Hsb & Hmerged).
  pose proof (merged_wf args w wb _ Hmerged) as Hwf.
  eexists _, _, _. rewrite (run_merge _ _ _ _ _ _ _ Hsp Hl Hsc).
  unfold written. rewrite Hmerged, Hcw.
  split; [reflexivity|]. simpl.
  split; [apply lookup_insert_eq|].
  split; [by apply json_load_dump|].
  split; [apply scenarios_of_updated|].
  split; [reflexivity|].
  split; [apply DictFacts.get_set_eq|].
  split; [intros other Hne; by apply DictFacts.get_set_ne|].
  split.
  - intros b k Hb' Hk. rewrite Hb in Hb'. injection Hb' as <-.
    unfold getitem. by rewrite DictFacts.get_set_ne.
  - intros p Hp. by apply lookup_insert_ne.
Qed.

(** C4.  Running the tool a second time with the same arguments, on the
    files the first run left, leaves every file as the first run left
    it; in particular the output file is the same text. *)
Theorem run_twice_same_files (args : Namespace) (w : world) :
  fs (run args (run args w).1).1 = fs (run args w).1 ∧
  fs (run args (run args w).1).1 !! output_path args =
    fs (run args w).1 !! output_path args.
Proof.
  assert (H : fs (run args (run args w).1).1 = fs (run args w).1);
    [|by rewrite H].
  destruct (failure_class args w) as [f|] eqn:Hf.
  - rewrite (run_failure _ _ _ _ _ _ Hf). simpl.
    by rewrite (run_failure _ _ _ args (say (failure_output args f) w) f Hf).
  - apply failure_class_None in Hf as (content & wb & Hsp & Hl & Hsc).
    rewrite (run_merge _ _ _ _ _ _ _ Hsp Hl Hsc).
    destruct (written args w wb) as [e|doc] eqn:Hw; simpl.
    + match goal with
      | |- fs (run args ?w1).1 = _ =>
          rewrite (run_merge json_dump json_load load_workbook args w1 content wb Hsp Hl Hsc);
          change (written args w1 wb) with (written args w wb)
      end.
      by rewrite Hw.
    + apply written_inr in Hw as [Hm Hcw].
      pose proof (merged_wf args w wb _ Hm) as Hwf.
      match goal with
      | |- fs (run args ?w1).1 = _ => set (w1' := w1)
      end.
      destruct (failure_class args w1') as [f1|] eqn:Hf1.
      * by rewrite (run_failure _ _ _ _ _ _ Hf1).
      * apply failure_class_None in Hf1 as (content1 & wb1 & Hsp1 & Hl1 & Hsc1).
        rewrite (run_merge _ _ _ _ _ _ _ Hsp1 Hl1 Hsc1).
        assert (Hw1 : written args w1' wb1 = inr doc).
        { apply written_inr. split; [|exact Hcw].
          unfold merged, read_baseline. subst w1'. simpl.
          rewrite lookup_insert_eq, (json_load_dump _ Hwf).
          apply update_scenario_twice with (b :=
            match read_baseline args w with inr b => b | inl _ => JNone end).
          unfold merged in Hm.
          by destruct (read_baseline args w). }
        rewrite Hw1. subst w1'. simpl. apply insert_insert_eq.
Qed.

(** C5.  A successful run whose output path did not exist leaves there a
    document with schemaVersion 1 and, under extractionNotes, the method
    line and the tolerances dict with exactly the four fixed entries:
    currency_annual "±$1.00", currency_monthly "±$0.10", percentages
    "±0.001%" and dates "exact".  Its scenarios hold the new record and
    nothing else. *)
Theorem created_document_has_default_skeleton (args : Namespace) (w w' : world) :
  fs w !! output_path args = None →
  run args w = (w', 0%Z) →
  ∃ doc notes record,
    fs w' !! output_path args = Some (json_dump doc) ∧
    json_load (json_dump doc) = Some doc ∧
    getitem doc "schemaVersion" = inr (JInt 1) ∧
    getitem doc "extractionNotes" = inr notes ∧
    getitem notes "method" =
      inr (JStr "Python script (see scripts/extract-baseline.py)") ∧
    getitem notes "tolerances" =
      inr (JDict [("currency_annual", JStr "±$1.00");
                  ("currency_monthly", JStr "±$0.10");
                  ("percentages", JStr "±0.001%");
                  ("dates", JStr "exact")]) ∧
    Dict.keys (match notes with JDict d => d | _ => [] end) =
      ["method"; "tolerances"] ∧
    scenarios_of doc = Some [(scenario args, record)].
Proof.
  intros Hout Hrun.
  destruct (run_success args w w' Hrun)
    as (content & wb & b & d & Hsp & Hl & Hsc & Hb & -> & Hsb & Hwf & ->).
  unfold scenarios_before in *. rewrite Hb in *.
  unfold read_baseline in Hb. rewrite Hout in Hb. injection Hb as <-.
  eexists _, _, _. simpl fs.
  split; [apply lookup_insert_eq|].
  split; [by apply json_load_dump|].
  repeat split; reflexivity.
Qed.

(** C6.  A successful run with the default arguments leaves an output
    file that parses to a document whose scenarios["gs-straight-through"]
    has status "pending", an expectedValues whose 32 leaves are all null,
    and as notes the four literal strings of the stub: its three TODO
    items and its tolerance remark. *)
Theorem default_run_writes_pending_stub (w w' : world) :
  run (namespace_of_options []) w = (w', 0%Z) →
  ∃ doc scenarios record expected,
    fs w' !! output_path (namespace_of_options []) = Some (json_dump doc) ∧
    json_load (json_dump doc) = Some doc ∧
    scenarios_of doc = Some scenarios ∧
    Dict.get "gs-straight-through" scenarios = Some record ∧
    getitem record "status" = inr (JStr "pending") ∧
    getitem record "expectedValues" = inr expected ∧
    Forall (λ leaf, leaf = JNone) (leaves expected) ∧
    length (leaves expected) = 32 ∧
    getitem record "notes" =
      inr (JList [
        JStr "TODO: Identify which sheet contains the GS scenario data";
        JStr "TODO: Map cell references for each value above";
        JStr "TODO: Extract values and populate expectedValues";
        JStr "Tolerances: currency ±$1.00, percentages ±0.001%"]).
Proof.
  intros Hrun.
  destruct (run_success _ w w' Hrun)
    as (content & wb & b & d & Hsp & Hl & Hsc & Hb & -> & Hsb & Hwf & ->).
  eexists _, _, _, _. simpl fs.
  split; [apply lookup_insert_eq|].
  split; [by apply json_load_dump|].
  split; [apply scenarios_of_updated|].
  split; [apply DictFacts.get_set_eq|].
  split; [reflexivity|].
  split; [reflexivity|].
  split; [|split; reflexivity].
  simpl. repeat constructor.
Qed.

(** C10.  With a spreadsheet that loads, the known scenario and an output
    file that exists, [main] returns exactly when the file parses to a
    dict whose "scenarios" member is a dict and the output path can be
    opened for writing.  On a file that parses but has no such member the
    insertion raises [KeyError] or [TypeError]:
    [main] ends on that exception, not on [sys.exit], having printed the
    progress lines and no diagnostic, and the process status is 1.  There
    are such files: the text of the empty dict is valid JSON and has no
    "scenarios". *)
Theorem merge_needs_scenarios_dict
    (args : Namespace) (w : world) (content : string) (wb : workbook) (t : string) :
  fs w !! spreadsheet_path args = Some content →
  load_workbook (spreadsheet_path args) content = inr wb →
  scenario args = "gs-straight-through" →
  fs w !! output_path args = Some t →
  ((main_body args w).2 = Done tt ↔
     (∃ b sc, json_load t = Some b ∧ scenarios_of b = Some sc) ∧
     can_write w (output_path args) = true) ∧
  (∀ b, json_load t = Some b → scenarios_of b = None →
     ∃ e, update_scenario b (scenario args) (extract_gs_straight_through wb) = inl e ∧
          (e = KeyError "scenarios" ∨ e = TypeError) ∧
          main_body args w = (say (preamble args wb) w, Stop (Raise e)) ∧
          (run args w).2 = 1%Z ∧
          fs (run args w).1 = fs w) ∧
  (∃ t0 b0, json_load t0 = Some b0 ∧ scenarios_of b0 = None ∧
            update_scenario b0 (scenario args) (extract_gs_straight_through wb) =
              inl (KeyError "scenarios")).
Proof.
  intros Hsp Hl Hsc Hout.
  rewrite (run_merge _ _ _ _ _ _ _ Hsp Hl Hsc), (main_body_merge _ _ _ _ _ _ _ Hsp Hl Hsc).
  unfold written, merged, read_baseline. rewrite Hout. split; [|split].
  - destruct (json_load t) as [b|].
    + destruct (scenarios_of b) as [sc|] eqn:Hb.
      * destruct (update_scenario_Some b (scenario args)
                    (extract_gs_straight_through wb) sc Hb) as (d & _ & ->).
        destruct (can_write w (output_path args)); simpl.
        -- split; [eauto | done].
        -- split; [discriminate | by intros [_ ?]].
      * destruct (update_scenario_None b (scenario args)
                    (extract_gs_straight_through wb) Hb) as (e & -> & _).
        simpl. split; [discriminate|]. intros [(b' & sc & [= <-] & ?) _]. congruence.
    + simpl. split; [discriminate|]. by intros [(b' & sc & ? & _) _].
  - intros b -> Hb.
    destruct (update_scenario_None b (scenario args)
                (extract_gs_straight_through wb) Hb) as (e & He & Hcase).
    exists e. rewrite He. simpl. done.
  - exists (json_dump (JDict [])), (JDict []).
    split; [|by split]. apply json_load_dump. split; [constructor | exact I].
Qed.

End JsonContract.

(** ** The reference codec meets the contract *)

Module RefJsonFacts.

Import RefJson.
Local Open Scope char_scope.

(** *** Sizes *)

Lemma size_list (l : list json) :
  size (JList l) = S (list_sum (map size l)).
Proof.
  simpl. f_equal. induction l as [|x l IH]; simpl; [done|]. by rewrite IH.
Qed.

Lemma size_dict (d : list (string * json)) :
  size (JDict d) = S (list_sum (map (λ kv, size kv.2) d)).
Proof.
  simpl. f_equal. induction d as [|[k x] d IH]; simpl; [done|]. by rewrite IH.
Qed.

Lemma size_pos (v : json) : (1 ≤ size v)%nat.
Proof. destruct v; simpl; lia. Qed.

Lemma list_sum_size_length (l : list json) :
  (length l ≤ list_sum (map size l))%nat.
Proof.
  induction l as [|x l IH]; simpl; [lia|]. pose proof (size_pos x). lia.
Qed.

Lemma dict_sum_size_length (d : list (string * json)) :
  (length d ≤ list_sum (map (λ kv, size kv.2) d))%nat.
Proof.
  induction d as [|[k x] d IH]; simpl; [lia|]. pose proof (size_pos x). lia.
Qed.

(** *** White space *)

Lemma skip_ws_spaces (n : nat) (s : text) :
  skip_ws (repeat " " n ++ s) = skip_ws s.
Proof. induction n as [|n IH]; simpl; done. Qed.

Lemma skip_ws_newline_indent (level : nat) (s : text) :
  skip_ws (newline_indent level ++ s) = skip_ws s.
Proof. unfold newline_indent. simpl. apply skip_ws_spaces. Qed.

(** *** Strings *)

Lemma lex_string_escape (s : string) (rest : text) :
  lex_string (escape s ++ "034" :: rest) = Some (s, rest).
Proof.
  induction s as [|c s IH]; simpl; [done|].
  unfold escape_char.
  destruct (Ascii.eqb_spec c "034") as [->|H1]; simpl; [by rewrite IH|].
  destruct (Ascii.eqb_spec c "\") as [->|H2]; simpl; [by rewrite IH|].
  destruct (Ascii.eqb_spec c "010") as [->|H3]; simpl; [by rewrite IH|].
  destruct (Ascii.eqb_spec c "013") as [->|H4]; simpl; [by rewrite IH|].
  destruct (Ascii.eqb_spec c "009") as [->|H5]; simpl; [by rewrite IH|].
  destruct (Ascii.eqb_spec c "034"); [done|].
  destruct (Ascii.eqb_spec c "\"); [done|].
  by rewrite IH.
Qed.

Lemma lex_string_quote (s : string) (rest : text) :
  ∃ tail, quote s ++ rest = "034" :: tail ∧ lex_string tail = Some (s, rest).
Proof.
  exists (escape s ++ "034" :: rest). split.
  - unfold quote. simpl. by rewrite <- app_assoc.
  - apply lex_string_escape.
Qed.

(** *** Numbers *)

(** The text that follows a number must not go on with a digit. *)
Definition no_digit (rest : text) : Prop :=
  match rest with
  | [] => True
  | c :: _ => digit_of c = None
  end.

Lemma lex_uint_chars (u : Decimal.uint) (rest : text) :
  no_digit rest → lex_uint (uint_chars u ++ rest) = (u, rest).
Proof.
  intros Hrest. induction u; simpl; try (by rewrite IHu).
  destruct rest as [|c r]; simpl in *; [done|]. by rewrite Hrest.
Qed.

Lemma lex_int_chars (z : Z) (rest : text) :
  no_digit rest → lex_int (int_chars z ++ rest) = Some (z, rest).
Proof.
  intros Hrest. unfold int_chars.
  pose proof (DecimalZ.of_to z) as Hz.
  destruct (Z.to_int z) as [u|u] eqn:Hu.
  - assert (u ≠ Decimal.Nil).
    { destruct z; unfold Z.to_int in Hu; try discriminate; injection Hu as <-;
        [discriminate | apply DecimalPos.Unsigned.to_uint_nonnil]. }
    rewrite <- Hz.
    destruct u; [done|..]; simpl; by rewrite lex_uint_chars.
  - assert (u ≠ Decimal.Nil).
    { destruct z; unfold Z.to_int in Hu; try discriminate. injection Hu as <-.
      apply DecimalPos.Unsigned.to_uint_nonnil. }
    rewrite <- Hz. simpl.
    rewrite lex_uint_chars by done. by destruct u.
Qed.

(** A number starts with a digit or the minus sign, and with nothing
    else the reader looks for. *)
Definition number_start (c : ascii) : bool :=
  Ascii.eqb c "-" || bool_decide (is_Some (digit_of c)).

Lemma number_start_neq (c x : ascii) :
  number_start c = true → number_start x = false → Ascii.eqb c x = false.
Proof. intros Hc Hx. destruct (Ascii.eqb_spec c x); [congruence | done]. Qed.

Lemma int_chars_head (z : Z) :
  ∃ c r, int_chars z = c :: r ∧ number_start c = true.
Proof.
  unfold int_chars. destruct (Z.to_int z) as [u|u] eqn:Hu.
  - assert (u ≠ Decimal.Nil).
    { destruct z; unfold Z.to_int in Hu; try discriminate; injection Hu as <-;
        [discriminate | apply DecimalPos.Unsigned.to_uint_nonnil]. }
    destruct u; [done|..]; simpl; eauto.
  - simpl. eauto.
Qed.

Lemma skip_ws_idem (s : text) : skip_ws (skip_ws s) = skip_ws s.
Proof.
  induction s as [|c s IH]; simpl; [done|].
  destruct (is_space c) eqn:E; [done|]. simpl. by rewrite E.
Qed.

Lemma parse_value_ws (fuel : nat) (s : text) :
  parse_value fuel (skip_ws s) = parse_value fuel s.
Proof. destruct fuel; [done|]. simpl. by rewrite skip_ws_idem. Qed.

Lemma parse_value_newline_indent (fuel level : nat) (s : text) :
  parse_value fuel (newline_indent level ++ s) = parse_value fuel s.
Proof.
  rewrite <- parse_value_ws, skip_ws_newline_indent. apply parse_value_ws.
Qed.

Lemma parse_value_int (fuel : nat) (z : Z) (rest : text) :
  no_digit rest →
  parse_value (S fuel) (int_chars z ++ rest) = Some (JInt z, rest).
Proof.
  intros Hrest. pose proof (lex_int_chars z rest Hrest) as Hlex.
  destruct (int_chars_head z) as (c & r & Hc & Hstart).
  rewrite Hc in *. simpl app in *.
  assert (Hsp : is_space c = false).
  { unfold is_space. by rewrite !(number_start_neq c) by done. }
  cbn -[lex_int]. rewrite Hsp.
  rewrite !(number_start_neq c) by done.
  by rewrite Hlex.
Qed.

(** *** Lists and dicts *)

(** The text of the items after the first, and of the members after the
    first. *)
Definition more_items (level : nat) (l : list json) : text :=
  flat_map (λ y, "," :: newline_indent (S level) ++ encode (S level) y) l.

Definition more_members (level : nat) (d : list (string * json)) : text :=
  flat_map (λ kv, "," :: newline_indent (S level) ++ quote kv.1 ++ lit ": " ++
                  encode (S level) kv.2) d.

Lemma encode_list_cons (level : nat) (x : json) (l : list json) :
  encode level (JList (x :: l)) =
    "[" :: newline_indent (S level) ++ encode (S level) x ++
    more_items level l ++ newline_indent level ++ ["]"].
Proof.
  cbn -[newline_indent]. do 4 f_equal.
  induction l as [|y l IH]; [done|].
  cbn -[newline_indent]. rewrite IH. by rewrite <- !app_assoc.
Qed.

Lemma encode_dict_cons (level : nat) (k : string) (x : json)
    (d : list (string * json)) :
  encode level (JDict ((k, x) :: d)) =
    "{" :: newline_indent (S level) ++ quote k ++ lit ": " ++ encode (S level) x ++
    more_members level d ++ newline_indent level ++ ["}"].
Proof.
  cbn -[newline_indent quote]. do 7 f_equal.
  induction d as [|[k' y] d IH]; [done|].
  cbn -[newline_indent quote]. rewrite IH. by rewrite <- !app_assoc.
Qed.

Lemma more_items_cons (level : nat) (y : json) (l : list json) :
  more_items level (y :: l) =
    "," :: newline_indent (S level) ++ encode (S level) y ++ more_items level l.
Proof. unfold more_items. cbn [flat_map]. by rewrite <- app_comm_cons, <- app_assoc. Qed.

Lemma more_members_cons (level : nat) (k : string) (y : json)
    (d : list (string * json)) :
  more_members level ((k, y) :: d) =
    "," :: newline_indent (S level) ++ quote k ++ lit ": " ++
    encode (S level) y ++ more_members level d.
Proof.
  unfold more_members. cbn [flat_map fst snd].
  by rewrite <- app_comm_cons, <- !app_assoc.
Qed.

(** Tests on characters that are known. *)
Local Ltac decide_chars :=
  repeat match goal with
  | |- context [Ascii.eqb ?a ?b] =>
      let v := eval vm_compute in (Ascii.eqb a b) in
      match v with
      | true => change (Ascii.eqb a b) with true
      | false => change (Ascii.eqb a b) with false
      end
  | |- context [is_space ?a] =>
      let v := eval vm_compute in (is_space a) in
      match v with
      | true => change (is_space a) with true
      | false => change (is_space a) with false
      end
  end; cbv iota.

(** What follows an item or a member is a comma or a line break. *)
Lemma no_digit_more_items (level : nat) (l : list json) (s : text) :
  no_digit (more_items level l ++ newline_indent level ++ s).
Proof. destruct l; reflexivity. Qed.

Lemma no_digit_more_members (level : nat) (d : list (string * json)) (s : text) :
  no_digit (more_members level d ++ newline_indent level ++ s).
Proof. destruct d; reflexivity. Qed.

Section Items.

Variable fuel : nat.

(** The reader of one value gets every value of the list or dict right. *)
Variable good : json → Prop.
Hypothesis parse_good : ∀ v level rest,
  good v → no_digit rest →
  parse_value fuel (encode level v ++ rest) = Some (v, rest).

Lemma parse_items_encode (n level : nat) (x : json) (l : list json) (rest : text) :
  good x → Forall good l → (length l < n)%nat →
  parse_items (parse_value fuel) n
    (newline_indent (S level) ++ encode (S level) x ++
     more_items level l ++ newline_indent level ++ "]" :: rest) =
  Some (x :: l, rest).
Proof.
  revert n x. induction l as [|y l IH]; intros n x Hx Hl Hn.
  - destruct n as [|n]; [lia|]. cbn [parse_items].
    rewrite parse_value_newline_indent.
    rewrite parse_good by (done || apply (no_digit_more_items level [])).
    cbn [more_items flat_map app]. rewrite skip_ws_newline_indent. reflexivity.
  - destruct n as [|n]; [simpl in Hn; lia|]. cbn [parse_items].
    rewrite parse_value_newline_indent.
    rewrite parse_good by (done || apply (no_digit_more_items level (y :: l))).
    apply Forall_cons in Hl as [Hy Hl].
    rewrite more_items_cons, <- app_comm_cons. cbn [skip_ws]. decide_chars.
    rewrite <- !app_assoc.
    simpl in Hn. rewrite IH by (done || lia). reflexivity.
Qed.

Lemma parse_members_encode (n level : nat) (k : string) (x : json)
    (d : list (string * json)) (rest : text) :
  good x → Forall (λ kv, good kv.2) d → (length d < n)%nat →
  parse_members (parse_value fuel) n
    (newline_indent (S level) ++ quote k ++ lit ": " ++ encode (S level) x ++
     more_members level d ++ newline_indent level ++ "}" :: rest) =
  Some ((k, x) :: d, rest).
Proof.
  revert n k x. induction d as [|[k' y] d IH]; intros n k x Hx Hd Hn.
  - destruct n as [|n]; [lia|]. cbn [parse_members].
    rewrite skip_ws_newline_indent.
    destruct (lex_string_quote k (lit ": " ++ encode (S level) x ++
                more_members level [] ++ newline_indent level ++ "}" :: rest))
      as (tail & -> & Hlex).
    cbn [skip_ws]. decide_chars. rewrite Hlex.
    cbn [lit list_ascii_of_string app skip_ws]. decide_chars.
    rewrite <- (parse_value_ws fuel (" " :: _)). cbn [skip_ws]. decide_chars.
    rewrite parse_value_ws.
    rewrite parse_good by (done || apply (no_digit_more_members level [])).
    cbn [more_members flat_map app]. rewrite skip_ws_newline_indent. reflexivity.
  - destruct n as [|n]; [simpl in Hn; lia|]. cbn [parse_members].
    rewrite skip_ws_newline_indent.
    destruct (lex_string_quote k (lit ": " ++ encode (S level) x ++
                more_members level ((k', y) :: d) ++ newline_indent level ++
                "}" :: rest))
      as (tail & -> & Hlex).
    cbn [skip_ws]. decide_chars. rewrite Hlex.
    cbn [lit list_ascii_of_string app skip_ws]. decide_chars.
    rewrite <- (parse_value_ws fuel (" " :: _)). cbn [skip_ws]. decide_chars.
    rewrite parse_value_ws.
    rewrite parse_good by (done || apply (no_digit_more_members level ((k', y) :: d))).
    apply Forall_cons in Hd as [Hy Hd].
    rewrite more_members_cons, <- app_comm_cons. cbn [skip_ws]. decide_chars.
    rewrite <- !app_assoc.
    simpl in Hn. rewrite IH by (done || lia). reflexivity.
Qed.

End Items.

(** Members with distinct keys make the dict that lists them in order. *)
Lemma fold_set_NoDup (d acc : list (string * json)) :
  NoDup (Dict.keys (acc ++ d)) →
  fold_left (λ d kv, Dict.set kv.1 kv.2 d) d acc = acc ++ d.
Proof.
  revert acc. induction d as [|[k v] d IH]; intros acc Hnd; simpl.
  - by rewrite app_nil_r.
  - assert (Hk : Dict.get k acc = None).
    { apply DictFacts.get_None_keys. unfold Dict.keys in Hnd.
      rewrite map_app in Hnd. apply NoDup_app in Hnd as (_ & Hdisj & _).
      intros Hin. apply (Hdisj k Hin). simpl. apply list_elem_of_here. }
    rewrite (DictFacts.set_absent k v acc Hk).
    rewrite IH; rewrite <- app_assoc; done.
Qed.

Lemma dict_of_members_NoDup (d : list (string * json)) :
  NoDup (Dict.keys d) → dict_of_members d = d.
Proof. intros Hnd. unfold dict_of_members. by rewrite fold_set_NoDup. Qed.

Lemma encode_head (level : nat) (v : json) :
  ∃ c r, encode level v = c :: r ∧ is_space c = false ∧ Ascii.eqb c "]" = false.
Proof.
  destruct v as [|b|z|s|l|d].
  - by eexists _, _.
  - destruct b; by eexists _, _.
  - destruct (int_chars_head z) as (c & r & Hc & Hstart).
    exists c, r. split; [done|]. split.
    + unfold is_space. by rewrite !(number_start_neq c) by done.
    + by apply number_start_neq.
  - by eexists _, _.
  - destruct l as [|x l]; [by eexists _, _|].
    rewrite encode_list_cons. by eexists _, _.
  - destruct d as [|[k x] d]; [by eexists _, _|].
    rewrite encode_dict_cons. by eexists _, _.
Qed.

Lemma Forall_size_list (l : list json) :
  Forall (λ y, (size y ≤ list_sum (map size l))%nat) l.
Proof.
  induction l as [|x l IH]; constructor; simpl; [lia|].
  eapply Forall_impl; [exact IH|]. simpl. intros y Hy. lia.
Qed.

Lemma Forall_size_dict (d : list (string * json)) :
  Forall (λ kv, (size kv.2 ≤ list_sum (map (λ kv, size kv.2) d))%nat) d.
Proof.
  induction d as [|[k x] d IH]; constructor; simpl; [lia|].
  eapply Forall_impl; [exact IH|]. simpl. intros y Hy. lia.
Qed.

(** *** Reading back what was written *)

Lemma parse_value_encode (fuel : nat) :
  ∀ (v : json) (level : nat) (rest : text),
    (size v ≤ fuel)%nat → json_wf v → no_digit rest →
    parse_value fuel (encode level v ++ rest) = Some (v, rest).
Proof.
  induction fuel as [|f IH]; intros v level rest Hsize Hwf Hrest.
  { pose proof (size_pos v). lia. }
  destruct v as [|b|z|s|l|d].
  - by vm_compute.
  - destruct b; by vm_compute.
  - by apply parse_value_int.
  - cbn [encode quote app parse_value skip_ws]. decide_chars.
    rewrite <- app_assoc. cbn [app]. by rewrite lex_string_escape.
  - destruct l as [|x l]; [by vm_compute|].
    rewrite size_list in Hsize. simpl in Hsize.
    apply json_wf_list, Forall_cons in Hwf as [Hx Hl].
    rewrite encode_list_cons, <- app_comm_cons, <- !app_assoc.
    cbn [parse_value skip_ws]. decide_chars.
    destruct (encode_head (S level) x) as (c & r & Hc & Hsp & Hbr).
    match goal with
    | |- context [skip_ws ?s] =>
        assert (∃ r', skip_ws s = c :: r') as [r' ->]
    end.
    { rewrite skip_ws_newline_indent, Hc. cbn [app skip_ws]. rewrite Hsp. eauto. }
    rewrite Hbr. cbn [app].
    pose proof (list_sum_size_length l) as Hlen.
    pose proof (size_pos x) as Hpos.
    rewrite (parse_items_encode f (λ y, (size y ≤ f)%nat ∧ json_wf y)).
    + reflexivity.
    + intros v' level' rest' [Hs Hw] Hr. by apply IH.
    + split; [lia | done].
    + pose proof (Forall_size_list l) as Hsz.
      rewrite Forall_forall in Hsz, Hl. apply Forall_forall.
      intros y Hy. split; [|by apply Hl]. specialize (Hsz y Hy). simpl in Hsz. lia.
    + lia.
  - destruct d as [|[k x] d]; [by vm_compute|].
    rewrite size_dict in Hsize. simpl in Hsize.
    apply json_wf_dict in Hwf as [Hnd Hd]. apply Forall_cons in Hd as [Hx Hd].
    rewrite encode_dict_cons, <- app_comm_cons, <- !app_assoc.
    cbn [parse_value skip_ws]. decide_chars.
    match goal with
    | |- context [skip_ws ?s] =>
        assert (∃ r', skip_ws s = "034" :: r') as [r' ->]
    end.
    { rewrite skip_ws_newline_indent. unfold quote. cbn [app skip_ws].
      decide_chars. eauto. }
    decide_chars. cbn [app].
    pose proof (dict_sum_size_length d) as Hlen.
    pose proof (size_pos x) as Hpos.
    rewrite (parse_members_encode f (λ y, (size y ≤ f)%nat ∧ json_wf y)).
    + by rewrite dict_of_members_NoDup.
    + intros v' level' rest' [Hs Hw] Hr. by apply IH.
    + split; [lia | done].
    + pose proof (Forall_size_dict d) as Hsz.
      rewrite Forall_forall in Hsz, Hd. apply Forall_forall.
      intros y Hy. split; [|by apply Hd]. specialize (Hsz y Hy). simpl in Hsz. lia.
    + lia.
Qed.

(** The text of a value has at least as many characters as the value
    has nodes, so its length is fuel enough. *)
Lemma size_le_length (n : nat) :
  ∀ (v : json) (level : nat),
    (size v ≤ n)%nat → (size v ≤ length (encode level v))%nat.
Proof.
  induction n as [|n IH]; intros v level Hn.
  { pose proof (size_pos v). lia. }
  destruct v as [|b|z|s|l|d].
  - simpl. lia.
  - destruct b; simpl; lia.
  - destruct (int_chars_head z) as (c & r & Hc & _). simpl. rewrite Hc. simpl. lia.
  - simpl. lia.
  - destruct l as [|x l]; [simpl; lia|].
    rewrite size_list in *. rewrite encode_list_cons. simpl in Hn.
    change (list_sum (map size (x :: l))) with (size x + list_sum (map size l))%nat.
    cbn [length]. rewrite !length_app.
    assert (Hx : (size x ≤ length (encode (S level) x))%nat) by (apply IH; lia).
    assert (Hl : (list_sum (map size l) ≤ length (more_items level l))%nat).
    { assert (Hall : Forall (λ y, (size y ≤ n)%nat) l).
      { eapply Forall_impl; [apply Forall_size_list|]. simpl. intros y Hy. lia. }
      clear Hn Hx. induction Hall as [|y l Hy Hall IHl]; [simpl; lia|].
      rewrite more_items_cons.
      change (list_sum (map size (y :: l))) with (size y + list_sum (map size l))%nat.
      cbn [length]. rewrite !length_app.
      pose proof (IH y (S level) Hy). lia. }
    lia.
  - destruct d as [|[k x] d]; [simpl; lia|].
    rewrite size_dict in *. rewrite encode_dict_cons. simpl in Hn.
    change (list_sum (map (λ kv, size kv.2) ((k, x) :: d)))
      with (size x + list_sum (map (λ kv, size kv.2) d))%nat.
    cbn [length]. rewrite !length_app.
    assert (Hx : (size x ≤ length (encode (S level) x))%nat) by (apply IH; lia).
    assert (Hd : (list_sum (map (λ kv, size kv.2) d) ≤
                  length (more_members level d))%nat).
    { assert (Hall : Forall (λ kv, (size kv.2 ≤ n)%nat) d).
      { eapply Forall_impl; [apply Forall_size_dict|]. simpl. intros y Hy. lia. }
      clear Hn Hx. induction Hall as [|[k' y] d Hy Hall IHd]; [simpl; lia|].
      rewrite more_members_cons.
      change (list_sum (map (λ kv, size kv.2) ((k', y) :: d)))
        with (size y + list_sum (map (λ kv, size kv.2) d))%nat.
      cbn [length]. rewrite !length_app.
      pose proof (IH y (S level) Hy). lia. }
    lia.
Qed.

(** First half of the contract. *)
Lemma loads_dumps (v : json) : json_wf v → loads (dumps v) = Some v.
Proof.
  intros Hwf. unfold loads, dumps.
  rewrite list_ascii_of_string_of_list_ascii.
  pose proof (parse_value_encode (S (length (encode 0 v))) v 0 []) as H.
  rewrite app_nil_r in H. rewrite H; [done| |done|exact I].
  pose proof (size_le_length (size v) v 0). lia.
Qed.

(** *** What the reader returns is well formed *)

Lemma parse_items_Forall (pv : text → option (json * text)) (P : json → Prop) :
  (∀ s v r, pv s = Some (v, r) → P v) →
  ∀ n s vs r, parse_items pv n s = Some (vs, r) → Forall P vs.
Proof.
  intros Hpv. induction n as [|n IH]; intros s vs r H; simpl in H; [done|].
  repeat case_match; simplify_eq; constructor; eauto.
Qed.

Lemma parse_members_Forall (pv : text → option (json * text)) (P : json → Prop) :
  (∀ s v r, pv s = Some (v, r) → P v) →
  ∀ n s kvs r, parse_members pv n s = Some (kvs, r) → Forall (λ kv, P kv.2) kvs.
Proof.
  intros Hpv. induction n as [|n IH]; intros s kvs r H; simpl in H; [done|].
  repeat case_match; simplify_eq; constructor; simpl; eauto.
Qed.

Lemma fold_set_wf (kvs acc : list (string * json)) :
  json_wf (JDict acc) → Forall (λ kv, json_wf kv.2) kvs →
  json_wf (JDict (fold_left (λ d kv, Dict.set kv.1 kv.2 d) kvs acc)).
Proof.
  revert acc. induction kvs as [|[k v] kvs IH]; intros acc Hacc Hall; simpl; [done|].
  apply Forall_cons in Hall as [Hv Hall].
  apply IH; [|done]. by apply json_wf_set.
Qed.

Lemma parse_value_wf (fuel : nat) :
  ∀ s v r, parse_value fuel s = Some (v, r) → json_wf v.
Proof.
  induction fuel as [|f IH]; intros s v r H; [done|].
  cbn [parse_value] in H.
  repeat case_match; simplify_eq;
    match goal with
    | |- json_wf (JDict []) => split; [constructor | exact I]
    | |- json_wf (JDict (dict_of_members _)) =>
        apply fold_set_wf;
          [ split; [constructor | exact I]
          | eapply parse_members_Forall; [|eassumption]; exact IH ]
    | |- json_wf (JList []) => exact I
    | |- json_wf (JList _) =>
        apply json_wf_list; eapply parse_items_Forall; [|eassumption]; exact IH
    | |- _ => exact I
    end.
Qed.

(** Second half of the contract. *)
Lemma loads_wf (t : string) (v : json) : loads t = Some v → json_wf v.
Proof.
  unfold loads. intros H. repeat case_match; simplify_eq.
  by eapply parse_value_wf.
Qed.

End RefJsonFacts.

(** * The statements on concrete files

    The script with the reference codec and the stand-in workbook loader,
    run on the worlds defined above. *)

(** C1, the claim as first stated fails: the scenario name is valid and
    the workbook loads, but the output file holds [{}], a document without
    "scenarios".  The run writes nothing, and the output file after the run
    has no scenarios["gs-straight-through"] at all. *)
Lemma merge_refused_without_scenarios :
  let w := world_with_output "{}" in
  let w' := (ref_run parser_defaults w).1 in
  failure_class demo_load_workbook parser_defaults w = None ∧
  (ref_run parser_defaults w).2 = 1%Z ∧
  ¬ ∃ t doc scenarios,
      fs w' !! output_path parser_defaults = Some t ∧
      RefJson.loads t = Some doc ∧
      scenarios_of doc = Some scenarios ∧
      Dict.get (scenario parser_defaults) scenarios =
        Some (extract_gs_straight_through demo_workbook).
Proof.
  cbv zeta. split; [by vm_compute|]. split; [by vm_compute|].
  intros (t & doc & scenarios & Ht & Hdoc & Hsc & _).
  vm_compute in Ht. injection Ht as <-.
  vm_compute in Hdoc. injection Hdoc as <-.
  discriminate Hsc.
Qed.

(** C1 as amended, on an output file that already has a scenario "leo"
    and a stale "gs-straight-through": after the run "leo" is as it was
    and "gs-straight-through" is the extractor's record. *)
Lemma merge_overwrites_one_scenario_witness :
  ∃ doc after,
    fs (ref_run parser_defaults (world_with_output (RefJson.dumps old_baseline))).1
      !! "app/tests/scenarios/fixtures/baseline.json" = Some (RefJson.dumps doc) ∧
    RefJson.loads (RefJson.dumps doc) = Some doc ∧
    scenarios_of doc = Some after ∧
    Dict.get "gs-straight-through" after =
      Some (extract_gs_straight_through demo_workbook) ∧
    Dict.get "leo" after = Some (JDict [("status", JStr "complete")]).
Proof.
  destruct (merge_overwrites_one_scenario
              RefJson.dumps RefJson.loads demo_load_workbook
              RefJsonFacts.loads_dumps RefJsonFacts.loads_wf
              parser_defaults (world_with_output (RefJson.dumps old_baseline))
              xlsx_bytes demo_workbook)
    as (w' & doc & after & Hrun & Hfile & Hload & Hsc & _ & Hget & Hothers & _).
  - vm_compute. reflexivity.
  - reflexivity.
  - reflexivity.
  - vm_compute. reflexivity.
  - vm_compute. reflexivity.
  - exists doc, after. unfold ref_run. rewrite Hrun.
    split; [exact Hfile|]. split; [exact Hload|]. split; [exact Hsc|].
    split; [exact Hget|].
    rewrite (Hothers "leo"); [vm_compute; reflexivity | discriminate].
Defined.

(** C2 on the empty file system. *)
Lemma missing_spreadsheet_witness :
  (ref_run parser_defaults empty_world).2 = 1%Z ∧
  fs (ref_run parser_defaults empty_world).1 = ∅.
Proof.
  destruct (missing_spreadsheet_exits_without_writing
              RefJson.dumps RefJson.loads demo_load_workbook
              parser_defaults empty_world)
    as (Hstatus & _ & Hfs & _).
  - vm_compute. reflexivity.
  - split; [exact Hstatus | exact Hfs].
Defined.

(** C3 with --scenario leo and a spreadsheet that loads. *)
Lemma unknown_scenario_witness :
  (ref_run (namespace_of_options [(OptScenario, "leo")]) fresh_world).2 = 1%Z ∧
  fs (ref_run (namespace_of_options [(OptScenario, "leo")]) fresh_world).1 = fs fresh_world.
Proof.
  destruct (unknown_scenario_exits_without_writing
              RefJson.dumps RefJson.loads demo_load_workbook
              (namespace_of_options [(OptScenario, "leo")]) fresh_world)
    as (Hstatus & _ & Hfs & _).
  - vm_compute. discriminate.
  - split; [exact Hstatus | exact Hfs].
Defined.

(** C4 on a first run that creates the output file. *)
Lemma run_twice_same_files_witness :
  fs (ref_run parser_defaults (ref_run parser_defaults fresh_world).1).1
    !! "app/tests/scenarios/fixtures/baseline.json" =
  fs (ref_run parser_defaults fresh_world).1
    !! "app/tests/scenarios/fixtures/baseline.json".
Proof.
  exact (proj2 (run_twice_same_files
                  RefJson.dumps RefJson.loads demo_load_workbook
                  RefJsonFacts.loads_dumps RefJsonFacts.loads_wf
                  parser_defaults fresh_world)).
Defined.

(** C5 on a run that creates the output file. *)
Lemma created_document_witness :
  ∃ doc notes,
    fs (ref_run parser_defaults fresh_world).1
      !! "app/tests/scenarios/fixtures/baseline.json" = Some (RefJson.dumps doc) ∧
    RefJson.loads (RefJson.dumps doc) = Some doc ∧
    getitem doc "schemaVersion" = inr (JInt 1) ∧
    getitem doc "extractionNotes" = inr notes ∧
    getitem notes "tolerances" =
      inr (JDict [("currency_annual", JStr "±$1.00");
                  ("currency_monthly", JStr "±$0.10");
                  ("percentages", JStr "±0.001%");
                  ("dates", JStr "exact")]).
Proof.
  destruct (created_document_has_default_skeleton
              RefJson.dumps RefJson.loads demo_load_workbook
              RefJsonFacts.loads_dumps RefJsonFacts.loads_wf
              parser_defaults fresh_world (ref_run parser_defaults fresh_world).1)
    as (doc & notes & record & Hfile & Hload & Hver & Hnotes & _ & Htol & _).
  - vm_compute. reflexivity.
  - vm_compute. reflexivity.
  - exists doc, notes.
    split; [exact Hfile|]. split; [exact Hload|]. split; [exact Hver|].
    split; [exact Hnotes | exact Htol].
Defined.

(** C6 on a run with no option given. *)
Lemma default_run_witness :
  ∃ doc scenarios record,
    fs (ref_run (namespace_of_options []) fresh_world).1
      !! "app/tests/scenarios/fixtures/baseline.json" = Some (RefJson.dumps doc) ∧
    scenarios_of doc = Some scenarios ∧
    Dict.get "gs-straight-through" scenarios = Some record ∧
    getitem record "status" = inr (JStr "pending").
Proof.
  destruct (default_run_writes_pending_stub
              RefJson.dumps RefJson.loads demo_load_workbook
              RefJsonFacts.loads_dumps RefJsonFacts.loads_wf
              fresh_world (ref_run (namespace_of_options []) fresh_world).1)
    as (doc & scenarios & record & expected & Hfile & _ & Hsc & Hget & Hstatus & _).
  - vm_compute. reflexivity.
  - exists doc, scenarios, record.
    split; [exact Hfile|]. split; [exact Hsc|]. split; [exact Hget | exact Hstatus].
Defined.

(** C7, the claim as first stated fails: when the spreadsheet is missing
    the diagnostic is on standard output and standard error stays empty. *)
Lemma missing_input_diagnostic_not_on_stderr :
  let w' := (ref_run parser_defaults empty_world).1 in
  failure_class demo_load_workbook parser_defaults empty_world = Some MissingInput ∧
  (ref_run parser_defaults empty_world).2 = 1%Z ∧
  stdout w' = ["Error: Retire-original.xlsx not found"] ∧
  stderr w' = [] ∧
  ¬ (diagnostic parser_defaults MissingInput ∈ stderr w').
Proof.
  cbv zeta. repeat split; try (vm_compute; reflexivity).
  vm_compute. intros H. by apply elem_of_nil in H.
Qed.

(** C7 as amended, on a spreadsheet that is not a workbook. *)
Lemma failure_diagnostic_witness :
  (ref_run parser_defaults corrupt_world).2 = 1%Z ∧
  stdout (ref_run parser_defaults corrupt_world).1 =
    ["Loading Retire-original.xlsx...";
     "Error loading workbook: File is not a zip file"] ∧
  stderr (ref_run parser_defaults corrupt_world).1 = [].
Proof.
  destruct (failure_diagnostic_on_stdout
              RefJson.dumps RefJson.loads demo_load_workbook
              parser_defaults corrupt_world
              (UnreadableWorkbook "File is not a zip file"))
    as (Hstatus & Hout & Herr & _).
  - vm_compute. reflexivity.
  - split; [exact Hstatus|]. split; [exact Hout | exact Herr].
Defined.

(** C8, the claim as first stated fails: the spreadsheet exists and loads
    and the scenario is the recognised one, yet the status is 1, because
    the output file holds [{}] and the insertion raises [KeyError]. *)
Lemma status_1_outside_the_three_failures :
  let w := world_with_output "{}" in
  (ref_run parser_defaults w).2 = 1%Z ∧
  fs w !! spreadsheet_path parser_defaults = Some xlsx_bytes ∧
  demo_load_workbook (spreadsheet_path parser_defaults) xlsx_bytes = inr demo_workbook ∧
  scenario parser_defaults = "gs-straight-through" ∧
  (ref_main parser_defaults w).2 = Stop (Raise (KeyError "scenarios")).
Proof. cbv zeta. repeat split; vm_compute; reflexivity. Qed.

(** C8 as amended, on a run that creates the output file: no failure
    class applies, there is no output file yet, and the status is 0. *)
Lemma defaults_and_exit_status_witness :
  (ref_run parser_defaults fresh_world).2 = 0%Z.
Proof.
  destruct (defaults_and_exit_status
              RefJson.dumps RefJson.loads demo_load_workbook)
    as (_ & Hbody & _).
  destruct (Hbody parser_defaults fresh_world) as (_ & _ & _ & Hzero & _).
  apply Hzero. repeat split; vm_compute; reflexivity.
Defined.

(** C10 on an output file that holds [{}]: it parses, it has no
    "scenarios", and [main] ends on [KeyError]. *)
Lemma merge_needs_scenarios_dict_witness :
  ref_main parser_defaults (world_with_output "{}") =
    (say (preamble parser_defaults demo_workbook) (world_with_output "{}"),
     Stop (Raise (KeyError "scenarios"))) ∧
  (ref_run parser_defaults (world_with_output "{}")).2 = 1%Z.
Proof.
  destruct (merge_needs_scenarios_dict
              RefJson.dumps RefJson.loads demo_load_workbook
              RefJsonFacts.loads_dumps
              parser_defaults (world_with_output "{}") xlsx_bytes demo_workbook "{}")
    as (_ & Hraise & _).
  - vm_compute. reflexivity.
  - reflexivity.
  - reflexivity.
  - vm_compute. reflexivity.
  - destruct (Hraise (JDict []))
      as (e & He & _ & Hmain & Hstatus & _).
    + vm_compute. reflexivity.
    + reflexivity.
    + vm_compute in He. injection He as <-.
      split; [exact Hmain | exact Hstatus].
Defined.

(** The same for an output file that holds [[]], which is not a dict: the
    insertion raises [TypeError]. *)
Example merge_on_a_list_raises_TypeError :
  (ref_main parser_defaults (world_with_output "[]")).2 = Stop (Raise TypeError).
Proof. vm_compute. reflexivity. Qed.

(** With only the spreadsheet there and an output path that cannot be
    opened for writing, [open(output_path, 'w')] raises: the sheets have
    been listed, nothing is written, and the status is 1 although no
    diagnostic was printed. *)
Example unwritable_output_raises_OSError :
  (ref_main parser_defaults readonly_world).2 =
    Stop (Raise (OSError "app/tests/scenarios/fixtures/baseline.json")) ∧
  (ref_run parser_defaults readonly_world).2 = 1%Z ∧
  fs (ref_run parser_defaults readonly_world).1 = fs readonly_world ∧
  stdout (ref_run parser_defaults readonly_world).1 =
    ["Loading Retire-original.xlsx..."; "Available sheets:";
     "  - Basic Calculator"; "  - Examples"] ∧
  stderr (ref_run parser_defaults readonly_world).1 =
    ["OSError: 'app/tests/scenarios/fixtures/baseline.json'"].
Proof. vm_compute. repeat split; reflexivity. Qed.

(** A command line that [argparse] rejects ends the process with status 2
    and the usage text on standard error; a request for help ends it with
    status 0 and the help text on standard output.  Neither looks at a
    file. *)
Example rejected_command_line_exits_2 :
  ref_script true (Rejected "usage: extract-baseline.py [-h]") empty_world =
    ({| fs := ∅; stdout := [];
        stderr := ["usage: extract-baseline.py [-h]"]; unwritable := ∅ |}, 2%Z).
Proof. reflexivity. Qed.

Example help_exits_0 :
  ref_script true (HelpRequested "usage: extract-baseline.py [-h]") empty_world =
    ({| fs := ∅; stdout := ["usage: extract-baseline.py [-h]"];
        stderr := []; unwritable := ∅ |}, 0%Z).
Proof. reflexivity. Qed.

(** Without [openpyxl] the script ends at the import, whatever the command
    line. *)
Example missing_openpyxl_exits_1 :
  ref_script false (Rejected "usage: extract-baseline.py [-h]") empty_world =
    ({| fs := ∅;
        stdout := ["Error: openpyxl not installed. Install with: pip install openpyxl"];
        stderr := []; unwritable := ∅ |}, 1%Z).
Proof. reflexivity. Qed.

(** [Path] on a few texts. *)
Example Path_examples :
  map Path ["./a//b/"; EmptyString; "."; "/"; "//"; "///a/./b"; "a/../b"] =
  ["a/b"; "."; "."; "/"; "//"; "/a/b"; "a/../b"].
Proof. reflexivity. Qed.

(** The option text goes through [Path] before it is used: with
    --spreadsheet ./Retire-original.xlsx the file looked for, and named in
    the output, is Retire-original.xlsx. *)
Example spreadsheet_option_is_normalised :
  (ref_script true (Options [(OptSpreadsheet, "./Retire-original.xlsx")]) fresh_world).2 = 0%Z ∧
  head (stdout (ref_script true (Options [(OptSpreadsheet, "./Retire-original.xlsx")])
                  fresh_world).1) =
    Some "Loading Retire-original.xlsx...".
Proof. vm_compute. split; reflexivity. Qed.

(** * Further properties of the script *)

(** ** Without the contract of [json] *)

Section RunFacts.

Variable json_dump : json → string.
Variable json_load : string → option json.
Variable load_workbook : string → string → string + workbook.

Local Abbreviation main_body := (main_body json_dump json_load load_workbook).
Local Abbreviation run := (run json_dump json_load load_workbook).
Local Abbreviation main := (main json_dump json_load load_workbook).
Local Abbreviation script := (script json_dump json_load load_workbook).
Local Abbreviation failure_class := (failure_class load_workbook).
Local Abbreviation read_baseline := (read_baseline json_load).
Local Abbreviation merged := (merged json_load).
Local Abbreviation written := (written json_load).
Local Abbreviation mergeable := (mergeable json_load).
Local Abbreviation scenarios_before := (scenarios_before json_load).

(** The three ways a run ends: refused with a diagnostic, stopped by an
    exception of the merge, or done. *)
Lemma run_cases (args : Namespace) (w : world) :
  (∃ f, failure_class args w = Some f ∧
        main_body args w = (say (failure_output args f) w, Stop (SysExit 1)) ∧
        run args w = (say (failure_output args f) w, 1%Z)) ∨
  (∃ content wb e,
     fs w !! spreadsheet_path args = Some content ∧
     load_workbook (spreadsheet_path args) content = inr wb ∧
     scenario args = "gs-straight-through" ∧
     written args w wb = inl e ∧
     main_body args w = (say (preamble args wb) w, Stop (Raise e)) ∧
     run args w = ({| fs := fs w; stdout := stdout w ++ preamble args wb;
                      stderr := stderr w ++ [traceback e];
                      unwritable := unwritable w |}, 1%Z)) ∨
  (∃ content wb doc,
     fs w !! spreadsheet_path args = Some content ∧
     load_workbook (spreadsheet_path args) content = inr wb ∧
     scenario args = "gs-straight-through" ∧
     merged args w wb = inr doc ∧
     can_write w (output_path args) = true ∧
     run args w =
       ({| fs := <[output_path args := json_dump doc]> (fs w);
           stdout := stdout w ++ preamble args wb ++
                     [newline +:+ "Updated " +:+ output_path args;
                      json_dump (extract_gs_straight_through wb)];
           stderr := stderr w; unwritable := unwritable w |}, 0%Z)).
Proof.
  destruct (failure_class args w) as [f|] eqn:Hf.
  - left. exists f. split; [done|]. split.
    + by apply main_body_failure.
    + by apply run_failure.
  - right.
    destruct (proj1 (failure_class_None _ args w) Hf) as (content & wb & Hsp & Hl & Hsc).
    pose proof (run_merge json_dump json_load _ _ _ _ _ Hsp Hl Hsc) as Hrun.
    pose proof (main_body_merge json_dump json_load _ _ _ _ _ Hsp Hl Hsc) as Hmain.
    destruct (written args w wb) as [e|doc] eqn:Hw.
    + left. by exists content, wb, e.
    + right. apply written_inr in Hw as [Hm Hcw]. by exists content, wb, doc.
Qed.

(** X1.  A run that ends with a status other than 0 has written nothing:
    every file, the output file included, is what it was before the run.
    The output file is opened for writing only after the load, the
    dispatch and the merge went through. *)
Theorem failed_run_writes_nothing (args : Namespace) (w : world) :
  (run args w).2 ≠ 0%Z →
  fs (run args w).1 = fs w ∧
  fs (run args w).1 !! output_path args = fs w !! output_path args.
Proof.
  intros Hstatus.
  assert (H : fs (run args w).1 = fs w); [|by rewrite H].
  destruct (run_cases args w)
    as [(f & _ & _ & Hrun)|[(c & wb & e & _ & _ & _ & _ & _ & Hrun)
                           |(c & wb & doc & _ & _ & _ & _ & _ & Hrun)]];
    rewrite Hrun in *; simpl in *; done.
Qed.

(** X2.  Whatever the arguments and the files, a run changes no file other
    than the one at the --output path; the spreadsheet in particular is
    only ever read, unless --output names it. *)
Theorem run_touches_only_output (args : Namespace) (w : world) (p : string) :
  p ≠ output_path args →
  fs (run args w).1 !! p = fs w !! p.
Proof.
  intros Hp.
  destruct (run_cases args w)
    as [(f & _ & _ & Hrun)|[(c & wb & e & _ & _ & _ & _ & _ & Hrun)
                           |(c & wb & doc & _ & _ & _ & _ & _ & Hrun)]];
    rewrite Hrun; simpl; [done | done |].
  by apply lookup_insert_ne.
Qed.

(** X3.  When the output file exists and is not JSON, [json.load] raises
    and nobody catches it: [main] stops on the exception after the
    progress lines, without a diagnostic; the process ends with status 1
    and a traceback on standard error, and the output file still holds
    the text it held. *)
Theorem undecodable_output_raises
    (args : Namespace) (w : world) (content : string) (wb : workbook) (t : string) :
  fs w !! spreadsheet_path args = Some content →
  load_workbook (spreadsheet_path args) content = inr wb →
  scenario args = "gs-straight-through" →
  fs w !! output_path args = Some t →
  json_load t = None →
  main_body args w = (say (preamble args wb) w, Stop (Raise JSONDecodeError)) ∧
  (run args w).2 = 1%Z ∧
  stdout (run args w).1 = stdout w ++ preamble args wb ∧
  stderr (run args w).1 = stderr w ++ [traceback JSONDecodeError] ∧
  fs (run args w).1 !! output_path args = Some t.
Proof.
  intros Hsp Hl Hsc Hout Hload.
  rewrite (run_merge _ _ _ _ _ _ _ Hsp Hl Hsc), (main_body_merge _ _ _ _ _ _ _ Hsp Hl Hsc).
  unfold written, merged, read_baseline. rewrite Hout, Hload. simpl. done.
Qed.

(** X4.  The assignment [baseline["scenarios"][name] = extracted] goes
    through exactly on a dict whose "scenarios" member is a dict.  It
    raises [KeyError] exactly on a dict without a "scenarios" key, and
    [TypeError] exactly when the document is not a dict or its
    "scenarios" member is not one; it raises nothing else. *)
Theorem update_scenario_exceptions (b : json) (name : string) (x : json) :
  ((∃ doc, update_scenario b name x = inr doc) ↔
     ∃ d sc, b = JDict d ∧ Dict.get "scenarios" d = Some (JDict sc)) ∧
  (update_scenario b name x = inl (KeyError "scenarios") ↔
     ∃ d, b = JDict d ∧ Dict.get "scenarios" d = None) ∧
  (update_scenario b name x = inl TypeError ↔
     (∀ d, b ≠ JDict d) ∨
     (∃ d v, b = JDict d ∧ Dict.get "scenarios" d = Some v ∧ ∀ sc, v ≠ JDict sc)) ∧
  (∀ e, update_scenario b name x = inl e → e = KeyError "scenarios" ∨ e = TypeError).
Proof.
  unfold update_scenario, getitem, setitem.
  destruct b as [|bb|z|s|l|d].
  1-5: (split; [split; [intros [? ?]; discriminate
                       | intros (? & ? & ? & _); discriminate]|];
        split; [split; [discriminate | intros (? & ? & _); discriminate]|];
        split; [split; [intros _; left; intros ?; discriminate | done]|];
        intros e [= <-]; by right).
  destruct (Dict.get "scenarios" d) as [v|] eqn:Hget.
  - destruct v as [|bb|z|s|l|sc].
    1-5: (split; [split; [intros [? ?]; discriminate
                         | intros (? & ? & [= <-] & ?); congruence]|];
          split; [split; [discriminate | intros (? & [= <-] & ?); congruence]|];
          split; [split; [intros _; right; eexists _, _;
                            split; [done|]; split; [done|]; intros ?; discriminate
                         | done]|];
          intros e [= <-]; by right).
    split; [split; [intros _; by exists d, sc | intros _; eauto]|].
    split; [split; [discriminate | intros (? & [= <-] & ?); congruence]|].
    split; [|discriminate].
    split; [discriminate|].
    intros [Hno|(d' & v & [= <-] & Hv & Hnot)].
    + by destruct (Hno d).
    + rewrite Hget in Hv. injection Hv as <-. by destruct (Hnot sc).
  - split; [split; [intros [? ?]; discriminate
                   | intros (? & ? & [= <-] & ?); congruence]|].
    split; [split; [intros _; by exists d | done]|].
    split; [|intros e [= <-]; by left].
    split; [discriminate|].
    intros [Hno|(d' & v & [= <-] & Hv & _)]; [by destruct (Hno d) | congruence].
Qed.

(** X5.  A successful run keeps the order of what was on file: the
    members of the document stay in their order, and so do the scenarios;
    a scenario that was there keeps its place, one that was not goes
    last, and no scenario is dropped. *)
Theorem merge_keeps_member_order (args : Namespace) (w w' : world) :
  run args w = (w', 0%Z) →
  ∃ d d' after,
    read_baseline args w = inr (JDict d) ∧
    fs w' !! output_path args = Some (json_dump (JDict d')) ∧
    Dict.keys d' = Dict.keys d ∧
    scenarios_of (JDict d') = Some after ∧
    Dict.keys after =
      match Dict.get (scenario args) (scenarios_before args w) with
      | Some _ => Dict.keys (scenarios_before args w)
      | None => Dict.keys (scenarios_before args w) ++ [scenario args]
      end ∧
    (length (scenarios_before args w) ≤ length after)%nat.
Proof.
  intros Hrun.
  assert (H0 : (run args w).2 = 0%Z) by (by rewrite Hrun).
  apply run_status_0 in H0 as (Hf & Hm & Hcw).
  apply failure_class_None in Hf as (content & wb & Hsp & Hl & Hsc).
  destruct (merged_mergeable json_load args w wb Hm)
    as (b & d & Hb & -> & Hsb & Hmerged).
  rewrite (run_merge _ _ _ _ _ _ _ Hsp Hl Hsc) in Hrun.
  unfold written in Hrun. rewrite Hmerged, Hcw in Hrun.
  injection Hrun as <-.
  eexists d, _, _. split; [exact Hb|]. simpl fs.
  split; [apply lookup_insert_eq|].
  split.
  { apply DictFacts.keys_set_present. unfold scenarios_of in Hsb.
    destruct (Dict.get "scenarios" d); [eauto | discriminate]. }
  split; [apply scenarios_of_updated|].
  destruct (Dict.get (scenario args) (scenarios_before args w)) as [old|] eqn:Hold.
  - split.
    + apply DictFacts.keys_set_present. eauto.
    + pose proof (DictFacts.keys_set_present (scenario args)
                    (extract_gs_straight_through wb) (scenarios_before args w)
                    (ltac:(eauto))) as Hk.
      apply (f_equal length) in Hk. unfold Dict.keys in Hk.
      rewrite !length_map in Hk. lia.
  - rewrite (DictFacts.set_absent _ _ _ Hold). split.
    + unfold Dict.keys. by rewrite map_app.
    + rewrite length_app. lia.
Qed.

(** X7.  Whenever the workbook loads, the first print calls of the run
    are "Loading <path>...", "Available sheets:" and one call per sheet, in
    the order of the workbook, made before the scenario name is looked at:
    the listing is there whether the run then succeeds, is refused or
    dies.  What follows is decided by the outcome: no further call when an
    exception goes uncaught, the one call of the unknown-scenario
    diagnostic, or the two calls of a successful run (the "Updated" text,
    which begins with a line break, and the JSON text of the record, which
    spans as many lines as [json.dumps] gives it). *)
Theorem sheets_listed_whenever_loaded
    (args : Namespace) (w : world) (content : string) (wb : workbook) :
  fs w !! spreadsheet_path args = Some content →
  load_workbook (spreadsheet_path args) content = inr wb →
  ∃ rest,
    stdout (run args w).1 =
      stdout w ++
      ["Loading " +:+ spreadsheet_path args +:+ "..."; "Available sheets:"] ++
      map (λ sheet, "  - " +:+ sheet) (sheetnames wb) ++ rest ∧
    ((rest = [] ∧ (run args w).2 = 1%Z ∧
      ∃ e, (main_body args w).2 = Stop (Raise e)) ∨
     (rest = ["Error: Unknown scenario '" +:+ scenario args +:+ "'"] ∧
      (run args w).2 = 1%Z ∧
      scenario args ≠ "gs-straight-through") ∨
     (rest = [newline +:+ "Updated " +:+ output_path args;
              json_dump (extract_gs_straight_through wb)] ∧
      (run args w).2 = 0%Z)).
Proof.
  intros Hsp Hl.
  destruct (String.eqb_spec (scenario args) "gs-straight-through") as [Hsc|Hsc].
  - rewrite (run_merge _ _ _ _ _ _ _ Hsp Hl Hsc),
      (main_body_merge _ _ _ _ _ _ _ Hsp Hl Hsc).
    destruct (written args w wb) as [e|doc]; simpl.
    + exists []. rewrite app_nil_r. split; [done|]. left. eauto.
    + eexists [_; _]. split; [done|]. right. right. done.
  - assert (Hf : failure_class args w = Some (UnknownScenario wb)).
    { unfold failure_class. rewrite Hsp, Hl.
      by destruct (String.eqb_spec (scenario args) "gs-straight-through"). }
    rewrite (run_failure _ _ _ _ _ _ Hf). simpl.
    eexists [_]. split; [done|]. right. left. done.
Qed.

(** X9.  What a run may leave on standard error, and its status, from
    the first line of the module on.  The body of [main] after
    [parse_args] never writes to standard error.  Over the whole script
    standard error grows in two cases only, each time by one text: the
    usage message of [argparse] when it rejects the command line, and
    the interpreter's traceback when an exception goes uncaught.  The
    status is 0, 1 or 2, and it is 2 exactly when [openpyxl] is there and
    [argparse] rejects the command line. *)
Theorem stderr_usage_or_traceback_only
    (openpyxl_installed : bool) (cl : command_line) (w : world) :
  (∀ args, stderr (main_body args w).1 = stderr w) ∧
  ((script openpyxl_installed cl w).2 = 0%Z ∨
   (script openpyxl_installed cl w).2 = 1%Z ∨
   (script openpyxl_installed cl w).2 = 2%Z) ∧
  ((script openpyxl_installed cl w).2 = 2%Z ↔
     openpyxl_installed = true ∧ ∃ usage, cl = Rejected usage) ∧
  (stderr (script openpyxl_installed cl w).1 = stderr w ↔
     openpyxl_installed = false ∨
     ((∀ usage, cl ≠ Rejected usage) ∧
      ∀ e, (main cl w).2 ≠ Stop (Raise e))) ∧
  (∀ usage, openpyxl_installed = true → cl = Rejected usage →
     stderr (script openpyxl_installed cl w).1 = stderr w ++ [usage]) ∧
  (∀ e, openpyxl_installed = true → (main cl w).2 = Stop (Raise e) →
     stderr (script openpyxl_installed cl w).1 = stderr w ++ [traceback e]).
Proof.
  assert (Hgrow : ∀ (l : list string) (x : string), l ++ [x] ≠ l).
  { intros l x H. apply (f_equal length) in H. rewrite length_app in H.
    simpl in H. lia. }
  split.
  { intros args.
    destruct (run_cases args w)
      as [(f & _ & -> & _)|[(c & wb & e & _ & _ & _ & _ & -> & _)
                           |(c & wb & doc & Hsp & Hl & Hsc & Hm & Hcw & _)]];
      [done | done |].
    rewrite (main_body_merge _ _ _ _ _ _ _ Hsp Hl Hsc).
    unfold written. by rewrite Hm, Hcw. }
  destruct openpyxl_installed; [|simpl; repeat split; auto; try done;
                                  by intros [? _]].
  destruct cl as [given|help|usage].
  - change (script true (Options given) w) with (run (namespace_of_options given) w).
    change (main (Options given) w) with (main_body (namespace_of_options given) w).
    set (args := namespace_of_options given).
    destruct (run_cases args w)
      as [(f & _ & Hmain & Hrun)|[(c & wb & e & _ & _ & _ & _ & Hmain & Hrun)
                                 |(c & wb & doc & Hsp & Hl & Hsc & Hm & Hcw & Hrun)]].
    + rewrite Hmain, Hrun. simpl.
      split; [auto|]. split; [split; [done | by intros [_ [? ?]]]|].
      split; [split; [intros _; right; done | done]|]. done.
    + rewrite Hmain, Hrun. simpl.
      split; [auto|]. split; [split; [done | by intros [_ [? ?]]]|].
      split.
      { split; [intros H; by apply Hgrow in H|].
        intros [?|[_ H]]; [done | by destruct (H e)]. }
      split; [done|]. by intros e' _ [= <-].
    + rewrite Hrun, (main_body_merge _ _ _ _ _ _ _ Hsp Hl Hsc).
      unfold written. rewrite Hm, Hcw. simpl.
      split; [auto|]. split; [split; [done | by intros [_ [? ?]]]|].
      split; [split; [intros _; right; done | done]|]. done.
  - change (script true (HelpRequested help) w) with (say [help] w, 0%Z).
    change (main (HelpRequested help) w) with (say [help] w, @Stop unit (SysExit 0)).
    simpl.
    split; [auto|]. split; [split; [done | by intros [_ [? ?]]]|].
    split; [split; [intros _; right; done | done]|]. done.
  - simpl.
    split; [auto|]. split; [split; [eauto | done]|].
    split.
    { split; [intros H; by apply Hgrow in H|].
      intros [?|[H _]]; [done | by destruct (H usage)]. }
    split; [by intros ? _ [= ->] | done].
Qed.

End RunFacts.

(** ** With the contract of [json] *)

Section RunFactsJson.

Variable json_dump : json → string.
Variable json_load : string → option json.
Variable load_workbook : string → string → string + workbook.

Hypothesis json_load_dump : ∀ v, json_wf v → json_load (json_dump v) = Some v.
Hypothesis json_load_wf : ∀ t v, json_load t = Some v → json_wf v.

Local Abbreviation main_body := (main_body json_dump json_load load_workbook).
Local Abbreviation run := (run json_dump json_load load_workbook).
Local Abbreviation main := (main json_dump json_load load_workbook).
Local Abbreviation script := (script json_dump json_load load_workbook).
Local Abbreviation failure_class := (failure_class load_workbook).
Local Abbreviation read_baseline := (read_baseline json_load).
Local Abbreviation merged := (merged json_load).
Local Abbreviation written := (written json_load).
Local Abbreviation mergeable := (mergeable json_load).
Local Abbreviation scenarios_before := (scenarios_before json_load).

(** The document a successful merge arrives at is one the merge accepts,
    once it is on file. *)
Lemma mergeable_written (args : Namespace) (w : world) (wb : workbook) (doc : json)
    (out err : list string) :
  merged args w wb = inr doc →
  json_load (json_dump doc) = Some doc ∧
  mergeable args {| fs := <[output_path args := json_dump doc]> (fs w);
                    stdout := out; stderr := err;
                    unwritable := unwritable w |} = true ∧
  merged args {| fs := <[output_path args := json_dump doc]> (fs w);
                 stdout := out; stderr := err;
                 unwritable := unwritable w |} wb = inr doc.
Proof.
  intros Hm.
  assert (Hload : json_load (json_dump doc) = Some doc).
  { apply json_load_dump. by apply (merged_wf json_load json_load_wf args w wb). }
  split; [done|].
  unfold merged, read_baseline in Hm.
  destruct (match fs w !! output_path args with
            | Some t => match json_load t with
                        | Some b => inr b
                        | None => inl JSONDecodeError
                        end
            | None => inr default_baseline
            end) as [e|b]; [discriminate|].
  pose proof (update_scenario_twice _ _ _ _ Hm) as Htwice.
  unfold mergeable, merged, read_baseline. simpl.
  rewrite lookup_insert_eq, Hload. split; [|done].
  destruct (scenarios_of doc) as [sc|] eqn:Hsc; [done|].
  destruct (update_scenario_None doc (scenario args)
              (extract_gs_straight_through wb) Hsc) as (e & He & _). congruence.
Qed.

(** X6.  A successful run ends its output with the line "Updated <output
    path>", after an empty line, and the text of the extracted record;
    that text parses to the very record the output file now holds under
    scenarios[name]. *)
Theorem echo_is_the_stored_record (args : Namespace) (w w' : world) :
  run args w = (w', 0%Z) →
  ∃ wb text record doc scenarios,
    stdout w' = stdout w ++ preamble args wb ++
                [newline +:+ "Updated " +:+ output_path args; text] ∧
    json_load text = Some record ∧
    fs w' !! output_path args = Some (json_dump doc) ∧
    json_load (json_dump doc) = Some doc ∧
    scenarios_of doc = Some scenarios ∧
    Dict.get (scenario args) scenarios = Some record.
Proof.
  intros Hrun.
  destruct (run_success _ _ _ json_load_wf args w w' Hrun)
    as (content & wb & b & d & Hsp & Hl & Hsc & Hb & -> & Hsb & Hwf & ->).
  exists wb. eexists _, _, _, _. simpl.
  split; [reflexivity|].
  split; [apply json_load_dump, extract_gs_straight_through_wf|].
  split; [apply lookup_insert_eq|].
  split; [by apply json_load_dump|].
  split; [apply scenarios_of_updated|].
  apply DictFacts.get_set_eq.
Qed.

(** X8.  The script never leaves an output file it would itself refuse:
    after a successful run the output file parses and has a scenarios
    dict, and a run of any kind on an output file that is absent or
    acceptable leaves it absent or acceptable. *)
Theorem written_file_is_mergeable (args : Namespace) (w : world) :
  ((run args w).2 = 0%Z → mergeable args (run args w).1 = true) ∧
  (mergeable args w = true → mergeable args (run args w).1 = true).
Proof.
  destruct (run_cases json_dump json_load load_workbook args w)
    as [(f & _ & _ & Hrun)|[(c & wb & e & _ & _ & _ & _ & _ & Hrun)
                           |(c & wb & doc & _ & _ & _ & Hm & Hcw & Hrun)]];
    rewrite Hrun; simpl.
  - split; [discriminate | done].
  - split; [discriminate | done].
  - destruct (mergeable_written args w wb doc
                (stdout w ++ preamble args wb ++
                 [newline +:+ "Updated " +:+ output_path args;
                  json_dump (extract_gs_straight_through wb)])
                (stderr w) Hm) as (_ & Hok & _).
    by split.
Qed.

(** X10.  Success repeats: when a run succeeds and --output is not the
    spreadsheet itself, the same command run again on the files it left
    succeeds again, prints the same lines and leaves the files as they
    are. *)
Theorem success_repeats (args : Namespace) (w w' : world) :
  spreadsheet_path args ≠ output_path args →
  run args w = (w', 0%Z) →
  ∃ lines,
    stdout w' = stdout w ++ lines ∧
    run args w' =
      ({| fs := fs w'; stdout := stdout w' ++ lines; stderr := stderr w';
          unwritable := unwritable w' |}, 0%Z).
Proof.
  intros Hne Hrun.
  destruct (run_cases json_dump json_load load_workbook args w)
    as [(f & _ & _ & Hrun')|[(c & wb & e & _ & _ & _ & _ & _ & Hrun')
                            |(c & wb & doc & Hsp & Hl & Hsc & Hm & Hcw & Hrun')]];
    rewrite Hrun' in Hrun; try discriminate.
  injection Hrun as <-.
  eexists. split; [reflexivity|].
  match goal with
  | |- run args ?w1 = _ => set (w1' := w1)
  end.
  assert (Hsp1 : fs w1' !! spreadsheet_path args = Some c).
  { subst w1'. simpl. by rewrite lookup_insert_ne. }
  rewrite (run_merge _ _ _ _ _ _ _ Hsp1 Hl Hsc).
  destruct (mergeable_written args w wb doc (stdout w1') (stderr w1') Hm)
    as (_ & _ & Hm1).
  unfold written. subst w1'. simpl in *. rewrite Hm1.
  change (can_write _ (output_path args)) with (can_write w (output_path args)).
  rewrite Hcw. simpl.
  by rewrite insert_insert_eq.
Qed.

End RunFactsJson.

(** ** The further properties on concrete files *)

(** X1 on a spreadsheet that is not a workbook, with an output file in
    place. *)
Lemma failed_run_writes_nothing_witness :
  fs (ref_run (namespace_of_options [(OptSpreadsheet, "app/tests/scenarios/fixtures/baseline.json")])
        (world_with_output "{}")).1 =
  fs (world_with_output "{}").
Proof.
  apply (failed_run_writes_nothing
           RefJson.dumps RefJson.loads demo_load_workbook
           (namespace_of_options [(OptSpreadsheet, "app/tests/scenarios/fixtures/baseline.json")])
           (world_with_output "{}")).
  vm_compute. discriminate.
Defined.

(** X2 on a successful run: the spreadsheet is what it was. *)
Lemma run_touches_only_output_witness :
  fs (ref_run parser_defaults fresh_world).1 !! "Retire-original.xlsx" =
  Some xlsx_bytes.
Proof.
  unfold ref_run.
  rewrite (run_touches_only_output
             RefJson.dumps RefJson.loads demo_load_workbook
             parser_defaults fresh_world "Retire-original.xlsx").
  - vm_compute. reflexivity.
  - vm_compute. discriminate.
Defined.

(** X3 on an output file that holds the text [not json]. *)
Lemma undecodable_output_witness :
  (ref_run parser_defaults (world_with_output "not json")).2 = 1%Z ∧
  fs (ref_run parser_defaults (world_with_output "not json")).1
    !! "app/tests/scenarios/fixtures/baseline.json" = Some "not json".
Proof.
  destruct (undecodable_output_raises
              RefJson.dumps RefJson.loads demo_load_workbook
              parser_defaults (world_with_output "not json")
              xlsx_bytes demo_workbook "not json")
    as (_ & Hstatus & _ & _ & Hfile).
  - vm_compute. reflexivity.
  - reflexivity.
  - reflexivity.
  - vm_compute. reflexivity.
  - vm_compute. reflexivity.
  - split; [exact Hstatus | exact Hfile].
Defined.

(** X5 on the output file with "leo" before a stale
    "gs-straight-through": both keep their place. *)
Lemma merge_keeps_member_order_witness :
  ∃ d' after,
    fs (ref_run parser_defaults (world_with_output (RefJson.dumps old_baseline))).1
      !! "app/tests/scenarios/fixtures/baseline.json" =
      Some (RefJson.dumps (JDict d')) ∧
    Dict.keys d' = ["schemaVersion"; "scenarios"] ∧
    scenarios_of (JDict d') = Some after ∧
    Dict.keys after = ["leo"; "gs-straight-through"].
Proof.
  destruct (merge_keeps_member_order
              RefJson.dumps RefJson.loads demo_load_workbook
              parser_defaults (world_with_output (RefJson.dumps old_baseline))
              (ref_run parser_defaults
                 (world_with_output (RefJson.dumps old_baseline))).1)
    as (d & d' & after & Hb & Hfile & Hkeys & Hsc & Hafter & _).
  - vm_compute. reflexivity.
  - exists d', after.
    vm_compute in Hb. injection Hb as <-.
    split; [exact Hfile|]. split; [exact Hkeys|]. split; [exact Hsc|].
    rewrite Hafter. vm_compute. reflexivity.
Defined.

(** X6 on a run that creates the output file. *)
Lemma echo_is_the_stored_record_witness :
  ∃ text record,
    last (stdout (ref_run parser_defaults fresh_world).1) = Some text ∧
    RefJson.loads text = Some record.
Proof.
  destruct (echo_is_the_stored_record
              RefJson.dumps RefJson.loads demo_load_workbook
              RefJsonFacts.loads_dumps RefJsonFacts.loads_wf
              parser_defaults fresh_world (ref_run parser_defaults fresh_world).1)
    as (wb & text & record & doc & scenarios & Hout & Hload & _).
  - vm_compute. reflexivity.
  - exists text, record. split; [|exact Hload].
    rewrite Hout.
    change [newline +:+ "Updated " +:+ output_path parser_defaults; text]
      with ([newline +:+ "Updated " +:+ output_path parser_defaults] ++ [text]).
    rewrite !app_assoc. apply last_snoc.
Defined.

(** X7 with --scenario leo: the sheets are listed, then the refusal. *)
Lemma sheets_listed_witness :
  stdout (ref_run (namespace_of_options [(OptScenario, "leo")]) fresh_world).1 =
    ["Loading Retire-original.xlsx..."; "Available sheets:";
     "  - Basic Calculator"; "  - Examples"; "Error: Unknown scenario 'leo'"].
Proof.
  destruct (sheets_listed_whenever_loaded
              RefJson.dumps RefJson.loads demo_load_workbook
              (namespace_of_options [(OptScenario, "leo")]) fresh_world
              xlsx_bytes demo_workbook)
    as (rest & Hout & [(_ & _ & e & He)|[(-> & _)|(_ & H0)]]).
  - vm_compute. reflexivity.
  - reflexivity.
  - vm_compute in He. discriminate.
  - exact Hout.
  - vm_compute in H0. discriminate.
Defined.

(** X8 on a run that creates the output file. *)
Lemma written_file_is_mergeable_witness :
  mergeable RefJson.loads parser_defaults (ref_run parser_defaults fresh_world).1 = true.
Proof.
  apply (proj1 (written_file_is_mergeable
                  RefJson.dumps RefJson.loads demo_load_workbook
                  RefJsonFacts.loads_dumps RefJsonFacts.loads_wf
                  parser_defaults fresh_world)).
  vm_compute. reflexivity.
Defined.

(** X10 on a run that creates the output file, and the run after it. *)
Lemma success_repeats_witness :
  (ref_run parser_defaults (ref_run parser_defaults fresh_world).1).2 = 0%Z.
Proof.
  destruct (success_repeats
              RefJson.dumps RefJson.loads demo_load_workbook
              RefJsonFacts.loads_dumps RefJsonFacts.loads_wf
              parser_defaults fresh_world (ref_run parser_defaults fresh_world).1)
    as (lines & _ & Hrun).
  - vm_compute. discriminate.
  - vm_compute. reflexivity.
  - unfold ref_run at 1. by rewrite Hrun.
Defined.
